(** * DDTrace: harvesting DTrace buffers into a distributed log

    A shallow embedding of
    - [sys/modules/ddtrace/ddtrace.c], the in-kernel consumer: the client
      hash table ([ddtrace_open], [ddtrace_close], [ddtrace_stop]), the
      per-client worker ([ddtrace_thread]), the metadata export
      ([ddtrace_persist_metadata]), the per-CPU buffer switch
      ([ddtrace_buffer_switch]) and the hand-over of a drained region to
      the trace queue ([ddtrace_persist_trace]);
    - [contrib/ddtrace/ddtrace_consumer.c], the user-space consumer:
      [dtc_get_buf] and [dtc_buffered_handler].

    The embedding follows the code the preprocessor keeps: what sits
    between [#if 0] and [#endif] is not part of the module as built. The
    [dlog_produce] calls of the metadata export, all of them so disabled,
    are a parameter that is [None] for the module as built.
    Integers are [Z] with the wrap-around of their C type written out,
    pointers are [Z] with [0] for [NULL], byte buffers are [list byte].
    Definitions come first, the theorems follow. *)

From Stdlib Require Import ZArith List Lia Bool String.
From Stdlib.Strings Require Import Byte.
From stdpp Require Import base list.
Import ListNotations.
Local Open Scope Z_scope.

(** ** C integer types *)

Definition wrap (w x : Z) : Z := x mod 2 ^ w.
Definition u32 (x : Z) : Z := wrap 32 x.
(** [size_t] and [uint64_t] on the LP64 targets of the module. *)
(** The conversion of an integer to [int]: the low 32 bits, read in two's
    complement. *)
Definition to_int (x : Z) : Z := (x + 2 ^ 31) mod 2 ^ 32 - 2 ^ 31.
Definition INT64_MAX : Z := 2 ^ 63 - 1.
Definition NULL : Z := 0.

Definition byte_val (b : byte) : Z := Z.of_N (Byte.to_N b).

(** ** Assertions and fallible kernel code

    A computation of the module either yields a value or stops the kernel
    at a failed assertion. *)

Inductive outcome (A : Type) : Type :=
| Ok (a : A)
| Panic (msg : string).
Arguments Ok {A} a.
Arguments Panic {A} msg.

Definition obind {A B} (c : outcome A) (k : A -> outcome B) : outcome B :=
  match c with
  | Ok a => k a
  | Panic m => Panic m
  end.

Declare Scope outcome_scope.
Delimit Scope outcome_scope with outcome.
Notation "x <-- c ;;; k" := (obind c (fun x => k))
  (at level 100, c at next level, right associativity) : outcome_scope.
Notation "c ;;; k" := (obind c (fun _ => k))
  (at level 100, right associativity) : outcome_scope.
Local Open Scope outcome_scope.

(** Modelled from the spec: DL_ASSERT of [dl_assert.h], a header the
    sources do not carry. The design treats a failed assertion as a fatal
    internal-consistency violation, "asserted, not silently ignored": it
    stops the computation with [Panic]. *)
Definition DL_ASSERT (cond : bool) (msg : string) : outcome unit :=
  if cond then Ok tt else Panic msg.

(** ** C strings and allocation *)

(** [strlen(s)]: the characters before the terminator. *)
Fixpoint strlen (s : list byte) : nat :=
  match s with
  | [] => O
  | c :: s' => if byte_val c =? 0 then O else S (strlen s')
  end.

(** What [strncpy(dst, src, n)] leaves as the string in a zeroed [dst]
    whose last character stays the terminator. *)
Definition strncpy (src : list byte) (n : Z) : list byte :=
  take (Z.to_nat n) (take (strlen src) src).

(** An allocator that may fail is the list of the results its coming calls
    will have: [true] for a block, none left meaning a block. *)
Definition alloc_next (alloc : list bool) : bool * list bool :=
  match alloc with
  | [] => (true, [])
  | b :: rest => (b, rest)
  end.

(** ** Logging ([DLOGTR0] .. [DLOGTR3]) *)

Inductive prio : Type := PRIO_LOW | PRIO_NORMAL | PRIO_HIGH.

Record log_entry : Type := LogEntry { log_prio : prio; log_text : string }.

(** ** DTrace data, as far as the module reads it *)

(** Constants of [dtrace.h], [dtrace_impl.h] and [dl_config.h], none of
    which is among the sources: they are taken as parameters. *)
Record headers : Type := {
  DTRACE_EPIDNONE : Z;
  DTRACEBUF_RING : Z;
  DTRACEBUF_FILL : Z;
  DTRACEBUF_NOSWITCH : Z;
  DTRACEOPT_BUFPOLICY : Z;
  DTRACEOPT_DDTRACEARG : Z;
  DTRACEOPT_BUFPOLICY_SWITCH : Z;
  DTRACEOPT_UNSET : Z;
  DL_MTU : Z;
  DTRACE_PROVNAMELEN : Z;
  DTRACE_MODNAMELEN : Z;
  DTRACE_FUNCNAMELEN : Z;
  DTRACE_NAMELEN : Z;
  DTRACEACT_ISAGG : Z -> bool
}.

(** [dtrace_buffer_t]: one per CPU; [dtb_tomax] is the active region,
    [dtb_xamot] the standby one. *)
Record dtrace_buffer : Type := {
  dtb_offset : Z;
  dtb_flags : Z;
  dtb_drops : Z;
  dtb_errors : Z;
  dtb_tomax : Z;
  dtb_xamot : Z;
  dtb_xamot_offset : Z;
  dtb_xamot_drops : Z;
  dtb_xamot_errors : Z;
  dtb_switched : Z
}.

(** [dtrace_action_t], [dtrace_probe_t] and [dtrace_ecb_t], as far as the
    metadata export reads them. A pointer to a structure is the structure,
    [None] for [NULL]; the actions of an ECB, chained by [dta_next], are a
    list; [dtpv_name] is [dtpr_provider->dtpv_name]. *)
Record dtrace_action : Type := {
  dta_kind : Z;
  dta_intuple : Z;
  dta_rec : Z
}.

Record dtrace_probe : Type := {
  dtpr_id : Z;
  dtpv_name : list byte;
  dtpr_mod : list byte;
  dtpr_func : list byte;
  dtpr_name : list byte
}.

Record dtrace_ecb : Type := {
  dte_epid : Z;
  dte_probe : option dtrace_probe;
  dte_uarg : Z;
  dte_size : Z;
  dte_action : list dtrace_action
}.

(** [dtrace_state_t]. [dts_epid] is the next enabled-probe id to hand out,
    so the ids in use are [1 .. dts_epid - 1]. *)
Record dtrace_state : Type := DtraceState {
  dts_buffer : list dtrace_buffer;
  dts_errors : Z;
  dts_alive : Z;
  dts_epid : Z;
  dts_options : Z -> Z;
  dts_nformats : Z;
  dts_formats : option (list (option (list byte)));
  dts_necbs : Z;
  dts_ecbs : option (list (option dtrace_ecb))
}.

Definition set_dts_buffer (st : dtrace_state) (b : list dtrace_buffer) :=
  DtraceState b (dts_errors st) (dts_alive st) (dts_epid st) (dts_options st)
    (dts_nformats st) (dts_formats st) (dts_necbs st) (dts_ecbs st).
Definition set_dts_errors (st : dtrace_state) (e : Z) :=
  DtraceState (dts_buffer st) e (dts_alive st) (dts_epid st) (dts_options st)
    (dts_nformats st) (dts_formats st) (dts_necbs st) (dts_ecbs st).
Definition set_dts_alive (st : dtrace_state) (a : Z) :=
  DtraceState (dts_buffer st) (dts_errors st) a (dts_epid st) (dts_options st)
    (dts_nformats st) (dts_formats st) (dts_necbs st) (dts_ecbs st).

(** [dtrace_bufdesc_t], the descriptor of a drained region. *)
Record dtrace_bufdesc : Type := {
  dtbd_size : Z;
  dtbd_cpu : Z;
  dtbd_errors : Z;
  dtbd_drops : Z;
  dtbd_data : Z;
  dtbd_oldest : Z;
  dtbd_timestamp : Z
}.

(** ** Kernel-side state of the module *)

(** [struct client]: one per open DTrace state. [ddtrace_state] is the
    [dtrace_state_t] pointer the client is looked up by. *)
Record client : Type := Client {
  ddtrace_pid : Z;
  ddtrace_dlog_handle : Z;
  ddtrace_state : Z;
  ddtrace_exit : Z
}.

(** [struct virtio_dtrace_trace], the payload of a trace-queue entry. *)
Record virtio_dtrace_trace : Type := {
  vt_size : Z;
  vt_cpu : Z;
  vt_errors : Z;
  vt_drops : Z;
  vt_data : Z;
  vt_oldest : Z
}.

(** The globals the module works on: the client hash table and its mask,
    the virtio trace queue ([None] while [virtio_dtrace_device_register]
    returns [NULL]), the kernel threads added so far with their argument,
    the results the coming [M_NOWAIT] allocations will have ([true] for a
    block, none left meaning a block), and the log. *)
Record kernel : Type := Kernel {
  ddtrace_hashtbl : list (list client);
  ddtrace_hashmask : Z;
  vtdtr_traceq : option (list virtio_dtrace_trace);
  kthreads : list client;
  nowait : list bool;
  klog : list log_entry
}.

Definition set_hashtbl (k : kernel) (t : list (list client)) : kernel :=
  Kernel t (ddtrace_hashmask k) (vtdtr_traceq k) (kthreads k) (nowait k) (klog k).
Definition set_traceq (k : kernel) (q : option (list virtio_dtrace_trace)) :=
  Kernel (ddtrace_hashtbl k) (ddtrace_hashmask k) q (kthreads k) (nowait k) (klog k).
Definition set_kthreads (k : kernel) (ts : list client) : kernel :=
  Kernel (ddtrace_hashtbl k) (ddtrace_hashmask k) (vtdtr_traceq k) ts (nowait k) (klog k).
Definition set_nowait (k : kernel) (a : list bool) : kernel :=
  Kernel (ddtrace_hashtbl k) (ddtrace_hashmask k) (vtdtr_traceq k) (kthreads k) a (klog k).

Definition DLOGTR (p : prio) (text : string) (k : kernel) : kernel :=
  Kernel (ddtrace_hashtbl k) (ddtrace_hashmask k) (vtdtr_traceq k) (kthreads k)
         (nowait k) (klog k ++ [LogEntry p text]).

(** [malloc(size, type, M_NOWAIT)]: whether a block was handed out. *)
Definition malloc_nowait (k : kernel) : bool * kernel :=
  let (got, rest) := alloc_next (nowait k) in
  (got, set_nowait k rest).

Definition DDTRACE_NHASH_BUCKETS : nat := 16.

(** Modelled from the spec: hashinit(9), which the sources do not carry; it
    gives the registry its "small fixed bucket count" of empty chains and
    the mask that selects one. *)
Definition hashinit (elements : nat) : list (list client) * Z :=
  (replicate elements [], Z.of_nat elements - 1).

(** The [MOD_LOAD] arm of [ddtrace_event_handler], as far as the client
    table goes. *)
Definition ddtrace_load (k : kernel) : kernel :=
  let (tbl, mask) := hashinit DDTRACE_NHASH_BUCKETS in
  DLOGTR PRIO_LOW "Loading DDTrace kernel module"
    (Kernel tbl mask (vtdtr_traceq k) (kthreads k) (nowait k) (klog k)).

Definition ddtrace_assert_integrity (self : client) : outcome unit :=
  DL_ASSERT (negb (ddtrace_dlog_handle self =? NULL))
    "client instance Dlog handle field is NULL" ;;;
  DL_ASSERT (negb (ddtrace_state self =? NULL))
    "client instance DTrace state field is NULL" ;;;
  DL_ASSERT (negb (ddtrace_pid self =? NULL))
    "client instance proc is field NULL".

(** The initial value of the sysctl [kern.ddtrace.record_bound], the
    "maximum record size before compression". Nothing the preprocessor
    keeps reads it. *)
Definition ddtrace_record_bound : Z := 1024 * 1024.

(** ** [ddtrace_persist_trace]

    The drained region is described in a fresh trace entry, which is put on
    the virtio trace queue. The loop behind it, which would split the
    region into messages for the log, is between [#if 0] and [#endif]. *)
Definition ddtrace_persist_trace (kern : kernel) (desc : dtrace_bufdesc)
  : outcome kernel :=
  DL_ASSERT (negb (dtbd_data desc =? NULL))
    "ddtrace_persist_trace called with NULL buffer." ;;;
  DL_ASSERT (negb (dtbd_size desc =? 0))
    "ddtrace_persist_trace called with empty buffer." ;;;
  let kern := DLOGTR PRIO_LOW "Persisting trace data." kern in
  match vtdtr_traceq kern with
  | None => Panic "vtdtr_traceq was not initialised."
  | Some tq =>
    let (got, kern) := malloc_nowait kern in
    DL_ASSERT got "Failed allocating memory for trace entry." ;;;
    let trc := {| vt_size := dtbd_size desc; vt_cpu := dtbd_cpu desc;
                  vt_errors := dtbd_errors desc; vt_drops := dtbd_drops desc;
                  vt_data := dtbd_data desc; vt_oldest := dtbd_oldest desc |} in
    let kern :=
      DLOGTR PRIO_LOW
        "Trace data size is: %zu. Copied trace data size: %zu." kern in
    DL_ASSERT (negb (vt_data trc =? NULL))
      "Cannot enqueue trace entry with NULL trace data buffer" ;;;
    let tq' := tq ++ [trc] in
    let kern :=
      DLOGTR PRIO_LOW "Successfully enqueued trace data, unlocking queue."
        (set_traceq kern (Some tq')) in
    DL_ASSERT (negb (Z.of_nat (length tq') =? 0)) "Failed enqueueing." ;;;
    Ok kern
  end.

(** ** [ddtrace_buffer_switch] *)

Section Harvest.
Variable hdr : headers.
(** [dtrace_xcall(cpu, dtrace_buffer_switch, buf)]: what the cross call
    leaves in the CPU's buffer; [dtrace.c] is not among the sources. *)
Variable dtrace_xcall : Z -> dtrace_buffer -> dtrace_buffer.

(** The body of [for (cpu = 0; cpu < mp_ncpus; cpu++)], over the per-CPU
    entries of [state->dts_buffer] from [cpu] on. [errors] is
    [state->dts_errors] (a [uint32_t]) and [desc] the local descriptor,
    whose [dtbd_cpu] the function never assigns. The result carries the
    buffers as the loop leaves them. *)
Fixpoint buffer_switch_from (cpu : Z) (bufs : list dtrace_buffer)
  (errors : Z) (desc : dtrace_bufdesc) (kern : kernel)
  : outcome (list dtrace_buffer * Z * kernel) :=
  match bufs with
  | [] => Ok ([], errors, kern)
  | buf :: rest =>
    DL_ASSERT
      (Z.land (dtb_flags buf)
              (Z.lor (DTRACEBUF_RING hdr) (DTRACEBUF_FILL hdr)) =? 0)
      "DTrace ring/fill buffer policy is not supported" ;;;
    if dtb_tomax buf =? NULL then
      (* break *)
      Ok (buf :: rest, errors, kern)
    else
      let cached := dtb_tomax buf in
      DL_ASSERT (Z.land (dtb_flags buf) (DTRACEBUF_NOSWITCH hdr) =? 0)
        "DTrace buffer no switch flag set." ;;;
      let buf := dtrace_xcall cpu buf in
      if dtb_tomax buf =? cached then
        DL_ASSERT (negb (dtb_xamot buf =? cached))
          "DTrace buffers pointers are inconsistent" ;;;
        (* continue *)
        r <-- buffer_switch_from (cpu + 1) rest errors desc kern ;;;
        let '(rest', errors', kern') := r in
        Ok (buf :: rest', errors', kern')
      else
        DL_ASSERT (cached =? dtb_xamot buf)
          "DTrace buffers pointers are inconsistent" ;;;
        let errors := u32 (errors + dtb_xamot_errors buf) in
        let desc :=
          {| dtbd_data := dtb_xamot buf;
             dtbd_size := dtb_xamot_offset buf;
             dtbd_drops := dtb_xamot_drops buf;
             dtbd_errors := dtb_xamot_errors buf;
             dtbd_oldest := 0;
             dtbd_timestamp := dtb_switched buf;
             dtbd_cpu := dtbd_cpu desc |} in
        kern <-- (if negb (dtbd_size desc =? 0) then
                    ddtrace_persist_trace
                      (DLOGTR PRIO_LOW "About to persist trace data" kern)
                      desc
                  else Ok kern) ;;;
        r <-- buffer_switch_from (cpu + 1) rest errors desc kern ;;;
        let '(rest', errors', kern') := r in
        Ok (buf :: rest', errors', kern')
  end.

(** [desc0] stands for what the stack holds where [desc] is placed. *)
Definition ddtrace_buffer_switch (desc0 : dtrace_bufdesc)
  (state : dtrace_state) (handle : Z) (kern : kernel)
  : outcome (dtrace_state * kernel) :=
  DL_ASSERT (negb (handle =? NULL)) "DLog handle cannot be NULL" ;;;
  r <-- buffer_switch_from 0 (dts_buffer state) (dts_errors state)
          desc0 kern ;;;
  let '(bufs, errors, kern') := r in
  Ok (set_dts_errors (set_dts_buffer state bufs) errors, kern').
End Harvest.

(** Modelled from the spec: dtrace_buffer_switch of [dtrace.c], the
    primitive behind the cross call, for use in examples: it "atomically
    exchanges the roles" of the two regions and moves the "byte length
    written, drop count, error count, and a timestamp of last swap" to the
    standby side. [now] is the time of the switch. *)
Definition dtrace_buffer_switch (now : Z) (buf : dtrace_buffer) : dtrace_buffer :=
  {| dtb_offset := 0; dtb_flags := dtb_flags buf;
     dtb_drops := 0; dtb_errors := 0;
     dtb_tomax := dtb_xamot buf; dtb_xamot := dtb_tomax buf;
     dtb_xamot_offset := dtb_offset buf;
     dtb_xamot_drops := dtb_drops buf;
     dtb_xamot_errors := dtb_errors buf;
     dtb_switched := now |}.

(** ** [ddtrace_persist_metadata]

    The export of the format strings and of the enabled-probe descriptions.
    Every [dlog_produce] call of the function, with the [return -1] that
    follows its failure, sits in a disabled preprocessor block in this
    revision; [dlog_produce] is [None] for the function as it is compiled
    and the function of [dlog_client.h] for the function as it is written. *)

Definition DDTRACE_EPROBE_KEY : string := "eprobe".
Definition DDTRACE_FORMAT_KEY : string := "format".
Definition DDTRACE_PROBE_KEY : string := "probe".
Definition DDTRACE_NFORMAT_KEY : string := "nformat".
Definition DDTRACE_NPROBE_KEY : string := "nprobe".

(** [dtrace_probedesc_t] and [dtrace_eprobedesc_t] with its records. *)
Record dtrace_probedesc : Type := {
  dtpd_id : Z;
  dtpd_provider : list byte;
  dtpd_mod : list byte;
  dtpd_func : list byte;
  dtpd_name : list byte
}.

Record dtrace_eprobedesc : Type := {
  dtepd_epid : Z;
  dtepd_probeid : Z;
  dtepd_uarg : Z;
  dtepd_size : Z;
  dtepd_nrecs : Z;
  dtepd_rec : list Z
}.

(** What a [dlog_produce] call is handed as its value. *)
Inductive dlog_payload : Type :=
| PayloadInt (n : Z)
| PayloadString (s : list byte) (len : Z)
| PayloadProbe (d : dtrace_probedesc)
| PayloadEprobe (d : dtrace_eprobedesc).

Section Metadata.
Variable hdr : headers.
Variable dlog_produce : option (Z -> string -> dlog_payload -> Z).
(** The globals [dtrace_probes] and [dtrace_nprobes] of [dtrace.c]. *)
Variable dtrace_probes : list (option dtrace_probe).
Variable dtrace_nprobes : Z.

(** [dlog_produce(hdl, key, ...) != 0], where the call is compiled. *)
Definition produce_fails (hdl : Z) (key : string) (p : dlog_payload) : bool :=
  match dlog_produce with
  | None => false
  | Some produce => negb (produce hdl key p =? 0)
  end.

(** The loop [for (fmt = 1; fmt <= state->dts_nformats; fmt++)] over the
    format indices still to visit; the result is [-1] when a produce
    failed. A read past the array has no value here. *)
Fixpoint persist_formats (state : dtrace_state) (hdl : Z) (fmts : list Z)
  : outcome Z :=
  match fmts with
  | [] => Ok 0
  | fmt :: fmts' =>
    match dts_formats state with
    | None => Panic "Format array cannot be NULL"
    | Some formats =>
      match formats !! Z.to_nat (fmt - 1) with
      | None => Panic "read past dts_formats"
      | Some None => Panic "Format string cannor be NULL"
      | Some (Some fmt_str) =>
        let fmt_len := Z.of_nat (strlen fmt_str) + 1 in
        if produce_fails hdl DDTRACE_FORMAT_KEY (PayloadString fmt_str fmt_len)
        then Ok (-1)
        else persist_formats state hdl fmts'
      end
    end
  end.

(** The actions that give a record: neither aggregating nor in a tuple. *)
Definition action_skipped (act : dtrace_action) : bool :=
  DTRACEACT_ISAGG hdr (dta_kind act) || negb (dta_intuple act =? 0).

Fixpoint count_recs (acts : list dtrace_action) : Z :=
  match acts with
  | [] => 0
  | act :: acts' =>
    if action_skipped act then count_recs acts' else count_recs acts' + 1
  end.

(** The second pass over the actions, which copies [dta_rec] and stops
    when [nrecs-- == 0]. *)
Fixpoint copy_recs (acts : list dtrace_action) (nrecs : Z) : list Z :=
  match acts with
  | [] => []
  | act :: acts' =>
    if action_skipped act then copy_recs acts' nrecs
    else if nrecs =? 0 then []
    else dta_rec act :: copy_recs acts' (nrecs - 1)
  end.

(** The loop [for (epid = 1; epid <= state->dts_epid; epid++)] over the ids
    still to visit. The block for the description comes from
    [malloc(..., M_NOWAIT)] and is written to unchecked. *)
Fixpoint persist_eprobes (state : dtrace_state) (hdl : Z) (epids : list Z)
  (alloc : list bool) : outcome (Z * list bool) :=
  match epids with
  | [] => Ok (0, alloc)
  | epid :: epids' =>
    DL_ASSERT (0 <? dts_necbs state) "DTace ECB state is invalid" ;;;
    ecbs <-- match dts_ecbs state with
             | Some ecbs => Ok ecbs
             | None => Panic "read through a NULL dts_ecbs"
             end ;;;
    ecb <-- match ecbs !! Z.to_nat (epid - 1) with
            | Some ecb => Ok ecb
            | None => Panic "read past dts_ecbs"
            end ;;;
    DL_ASSERT (match ecb with
               | None => true
               | Some e => dte_epid e =? epid
               end) "DTrace ECBS state is inconsistent" ;;;
    match ecb with
    | None => persist_eprobes state hdl epids' alloc
    | Some e =>
      match dte_probe e with
      | None => persist_eprobes state hdl epids' alloc
      | Some pr =>
        match dtrace_probes !! Z.to_nat (dtpr_id pr - 1) with
        | None => Panic "read past dtrace_probes"
        | Some None => persist_eprobes state hdl epids' alloc
        | Some (Some probe) =>
          let pdesc :=
            {| dtpd_id := epid;
               dtpd_provider :=
                 strncpy (dtpv_name probe) (DTRACE_PROVNAMELEN hdr - 1);
               dtpd_mod := strncpy (dtpr_mod probe) (DTRACE_MODNAMELEN hdr - 1);
               dtpd_func :=
                 strncpy (dtpr_func probe) (DTRACE_FUNCNAMELEN hdr - 1);
               dtpd_name := strncpy (dtpr_name probe) (DTRACE_NAMELEN hdr - 1)
            |} in
          if produce_fails hdl DDTRACE_PROBE_KEY (PayloadProbe pdesc)
          then Ok (-1, alloc)
          else
            let nrecs := count_recs (dte_action e) in
            let (got, alloc) := alloc_next alloc in
            if got then
              let epdesc :=
                {| dtepd_epid := epid; dtepd_probeid := dtpr_id pr;
                   dtepd_uarg := dte_uarg e; dtepd_size := dte_size e;
                   dtepd_nrecs := nrecs;
                   dtepd_rec := copy_recs (dte_action e) nrecs |} in
              if produce_fails hdl DDTRACE_EPROBE_KEY (PayloadEprobe epdesc)
              then Ok (-1, alloc)
              else persist_eprobes state hdl epids' alloc
            else Panic "bcopy into a NULL block"
        end
      end
    end
  end.

(** The result is the return value and the allocator. *)
Definition ddtrace_persist_metadata (state : dtrace_state) (hdl : Z)
  (alloc : list bool) : outcome (Z * list bool) :=
  DL_ASSERT (negb (hdl =? NULL)) "DLog handle cannot be NULL." ;;;
  if produce_fails hdl DDTRACE_NFORMAT_KEY (PayloadInt (dts_nformats state))
  then Ok (-1, alloc)
  else
    rc <-- persist_formats state hdl (seqZ 1 (dts_nformats state)) ;;;
    if negb (rc =? 0) then Ok (-1, alloc)
    else if produce_fails hdl DDTRACE_NPROBE_KEY (PayloadInt dtrace_nprobes)
    then Ok (-1, alloc)
    else
      DL_ASSERT ((0 <? dts_necbs state)
                 && match dts_ecbs state with Some _ => true | None => false end)
        "dtrace ecb state is invalid" ;;;
      persist_eprobes state hdl (seqZ 1 (dts_epid state)) alloc.
End Metadata.

(** ** [ddtrace_thread], the worker of one client *)

(** One return of [cv_timedwait_sbt]: the value of [k->ddtrace_exit] the
    worker then reads under the client's mutex, the time
    [dtrace_gethrtime()] reports, and what the probes that fired during the
    wait did to the per-CPU buffers. *)
Record wake : Type := {
  w_exit : Z;
  w_hrtime : Z;
  w_probes : list dtrace_buffer -> list dtrace_buffer
}.

Inductive thread_event : Type :=
| EvMetadata (rc : Z)
| EvWake
| EvExitObserved
| EvAlive (t : Z)
| EvBufferSwitch
| EvKthreadExit.

Inductive thread_status : Type :=
| ThMetadataFailed   (* [return] after the metadata export failed *)
| ThExited           (* [kthread_exit()] *)
| ThWaiting.         (* asleep in [cv_timedwait_sbt], no wake left *)

Record thread_run : Type := ThreadRun {
  th_events : list thread_event;
  th_state : dtrace_state;
  th_kernel : kernel;
  th_status : thread_status
}.

Section Worker.
Variable hdr : headers.
Variable dtrace_xcall : Z -> dtrace_buffer -> dtrace_buffer.
(** The export the worker calls, [ddtrace_persist_metadata] above with its
    parameters fixed: from the state, the handle and the allocator to the
    return value and the allocator. *)
Variable persist_metadata :
  dtrace_state -> Z -> list bool -> outcome (Z * list bool).
Variable desc0 : dtrace_bufdesc.

(** The [for (;;)] loop; [true] in the result says the loop was left by
    its [break], [false] that the worker is still waiting. *)
Fixpoint ddtrace_thread_loop (wakes : list wake) (k : client)
  (state : dtrace_state) (kern : kernel)
  : outcome (list thread_event * dtrace_state * kernel * bool) :=
  match wakes with
  | [] => Ok ([], state, kern, false)
  | w :: wakes' =>
    let state := set_dts_buffer state (w_probes w (dts_buffer state)) in
    if negb (w_exit w =? 0) then
      Ok ([EvWake; EvExitObserved], state,
          DLOGTR PRIO_LOW "Stopping client thread..." kern, true)
    else
      let state := set_dts_alive state INT64_MAX in
      let state := set_dts_alive state (w_hrtime w) in
      r <-- ddtrace_buffer_switch hdr dtrace_xcall desc0 state
              (ddtrace_dlog_handle k) kern ;;;
      let (state, kern) := r in
      r <-- ddtrace_thread_loop wakes' k state kern ;;;
      let '(evs, state, kern, broke) := r in
      Ok (EvWake :: EvAlive (w_hrtime w) :: EvBufferSwitch :: evs,
          state, kern, broke)
  end.

Definition ddtrace_thread (k : client) (state : dtrace_state)
  (kern : kernel) (wakes : list wake) : outcome thread_run :=
  ddtrace_assert_integrity k ;;;
  r <-- persist_metadata state (ddtrace_dlog_handle k) (nowait kern) ;;;
  let (rc, alloc) := r in
  let kern := set_nowait kern alloc in
  if negb (rc =? 0) then
    Ok (ThreadRun [EvMetadata rc] state
          (DLOGTR PRIO_HIGH "Failed persisting metadata." kern)
          ThMetadataFailed)
  else
    r <-- ddtrace_thread_loop wakes k state kern ;;;
    let '(evs, state, kern, broke) := r in
    if broke then
      r <-- ddtrace_buffer_switch hdr dtrace_xcall desc0 state
              (ddtrace_dlog_handle k) kern ;;;
      let (state, kern) := r in
      Ok (ThreadRun (EvMetadata rc :: evs ++ [EvBufferSwitch; EvKthreadExit])
            state
            (DLOGTR PRIO_NORMAL "DDTrace thread exited successfully." kern)
            ThExited)
    else
      Ok (ThreadRun (EvMetadata rc :: evs) state kern ThWaiting).
End Worker.

(** ** The client registry: [ddtrace_open], [ddtrace_close], [ddtrace_stop] *)

(** [struct file] and [struct cdev_privdata], as far as [ddtrace_open]
    follows them from the descriptor to the Dlog handle. *)
Record cdev_privdata : Type := { cdpd_data : Z }.
Record file : Type := { f_cdevpriv : option cdev_privdata }.

(** What [ddtrace_open] gets from the rest of the kernel: the descriptor
    table of the calling process and the result of [kproc_kthread_add]
    (its return value and the process it stores). *)
Record open_env : Type := {
  fget_locked : Z -> option file;
  kproc_kthread_add : Z * Z
}.

(** The bucket of a [dtrace_state_t] pointer. [murmur3_32_hash] hashes the
    pointer itself with seed [0]. *)
Definition ddtrace_bucket (murmur3_32_hash : Z -> Z) (kern : kernel)
  (state : Z) : nat :=
  Z.to_nat (Z.land (murmur3_32_hash state) (ddtrace_hashmask kern)).

(** What is left of the module once [ddtrace_stop] has returned. The
    client table is no longer among the globals: it was handed to
    [hashdestroy(9)], which frees it, and the module was unregistered from
    DTrace. Neither function is among the sources; [destroyed] is the table
    as [hashdestroy] was handed it, [destroyed_mask] the mask that went
    with it. *)
Record stopped : Type := {
  destroyed : list (list client);
  destroyed_mask : Z;
  dist_unregistered : bool;
  stopped_traceq : option (list virtio_dtrace_trace);
  stopped_kthreads : list client;
  stopped_nowait : list bool;
  stopped_klog : list log_entry
}.

(** [LIST_INSERT_HEAD(&ddtrace_hashtbl[hash], k, client_entries)]. *)
Definition list_insert_head (tbl : list (list client)) (hash : nat)
  (k : client) : list (list client) :=
  alter (cons k) hash tbl.

Section Registry.
Variable hdr : headers.
Variable dtrace_epid2size : dtrace_state -> Z -> Z.
Variable murmur3_32_hash : Z -> Z.

(** The enabled-probe ids the loop
    [for (epid = 1; epid < state->dts_epid; epid++)] visits. *)
Definition open_epids (st : dtrace_state) : list Z :=
  seqZ 1 (dts_epid st - 1).

(** [state] is the [dtrace_state_t] pointer, [st] what it points to,
    [dist] the [dtrace_dist_t] pointer passed as [arg]. *)
Definition ddtrace_open (env : open_env) (dist : Z) (state : Z)
  (st : dtrace_state) (kern : kernel) : outcome kernel :=
  DL_ASSERT (negb (state =? NULL)) "DTrace state cannot be NULL." ;;;
  DL_ASSERT (negb (dist =? NULL)) "DTrace client instance cannot be NULL." ;;;
  let kern := DLOGTR PRIO_LOW "ddtrace_open" kern in
  match find (fun epid => DL_MTU hdr <? dtrace_epid2size st epid)
             (open_epids st) with
  | Some _ =>
    Ok (DLOGTR PRIO_HIGH
          "DTrace record size is greater than log MTU" kern)
  | None =>
    if negb (dts_options st (DTRACEOPT_BUFPOLICY hdr)
             =? DTRACEOPT_BUFPOLICY_SWITCH hdr) then
      Ok (DLOGTR PRIO_HIGH "DTrace bufpolicy must be switch" kern)
    else if dts_options st (DTRACEOPT_DDTRACEARG hdr)
            =? DTRACEOPT_UNSET hdr then
      Ok (DLOGTR PRIO_HIGH "DTrace ddtracearg option is unset" kern)
    else
      (* the option, an [int64_t], is converted to the [int fd] of
         [fget_locked] *)
      match fget_locked env
              (to_int (dts_options st (DTRACEOPT_DDTRACEARG hdr))) with
      | None =>
        Ok (DLOGTR PRIO_HIGH
              "DTrace ddtracearg is not a valid file decriptor" kern)
      | Some fp =>
        match f_cdevpriv fp with
        | None =>
          Ok (DLOGTR PRIO_HIGH
                "DTrace ddtracearg file descriptor is not associated with dlog handle"
                kern)
        | Some p =>
          let handle := cdpd_data p in
          if handle =? NULL then
            Ok (DLOGTR PRIO_HIGH
                  "DTrace ddtracearg file secriptor is not associated with dlog handle"
                  kern)
          else
            let (got, kern) := malloc_nowait kern in
            DL_ASSERT got "Failed to allocate new client instance." ;;;
            let (rc, pid) := kproc_kthread_add env in
            let k := {| ddtrace_pid := pid; ddtrace_dlog_handle := handle;
                        ddtrace_state := state; ddtrace_exit := 0 |} in
            DL_ASSERT (rc =? 0) "DDTrace open kproc_kthread_add failed" ;;;
            let kern := set_kthreads kern (kthreads kern ++ [k]) in
            ddtrace_assert_integrity k ;;;
            let hash := ddtrace_bucket murmur3_32_hash kern state in
            Ok (set_hashtbl kern
                  (list_insert_head (ddtrace_hashtbl kern) hash k))
        end
      end
  end.

(** The walk of [LIST_FOREACH_SAFE] in [ddtrace_close]: the first client
    of the chain whose [ddtrace_state] is [state], and the chain without
    it. *)
Fixpoint close_chain (state : Z) (chain : list client)
  : outcome (option client * list client) :=
  match chain with
  | [] => Ok (None, [])
  | k :: rest =>
    ddtrace_assert_integrity k ;;;
    if state =? ddtrace_state k then Ok (Some k, rest)
    else
      r <-- close_chain state rest ;;;
      let (found, rest') := r in
      Ok (found, k :: rest')
  end.

(** The result of [tsleep] is not looked at. The client handed back is
    the one that was signalled ([ddtrace_exit = 1]), removed and freed. *)
Definition ddtrace_close (state : Z) (kern : kernel)
  : outcome (kernel * option client) :=
  DL_ASSERT (negb (state =? NULL)) "DTrace state cannot be NULL" ;;;
  let hash := ddtrace_bucket murmur3_32_hash kern state in
  r <-- close_chain state (ddtrace_hashtbl kern !!! hash) ;;;
  match r with
  | (Some k, rest) =>
    Ok (DLOGTR PRIO_NORMAL "DDTrace thread stoppped successfully"
          (set_hashtbl kern (<[hash := rest]> (ddtrace_hashtbl kern))),
        Some (Client (ddtrace_pid k) (ddtrace_dlog_handle k)
                     (ddtrace_state k) 1))
  | (None, _) => Ok (kern, None)
  end.

(** One chain of [ddtrace_stop]; [tsleep] gives the result of the wait for
    the client's thread. *)
Fixpoint stop_chain (tsleep : client -> Z) (chain : list client)
  (kern : kernel) : outcome kernel :=
  match chain with
  | [] => Ok kern
  | k :: rest =>
    let kern := DLOGTR PRIO_LOW "Stopping client thread %p.." kern in
    DL_ASSERT (tsleep k =? 0) "Failed to stop client thread" ;;;
    stop_chain tsleep rest
      (DLOGTR PRIO_LOW "DDTrace thread stoppped successfully" kern)
  end.

Fixpoint stop_buckets (tsleep : client -> Z) (tbl : list (list client))
  (kern : kernel) : outcome kernel :=
  match tbl with
  | [] => Ok kern
  | chain :: tbl' =>
    kern <-- stop_chain tsleep chain kern ;;;
    stop_buckets tsleep tbl' kern
  end.

(** Every chain of the [DDTRACE_NHASH_BUCKETS] buckets is emptied; the
    table then goes to [hashdestroy] and the module is unregistered with
    [dtrace_dist_unregister(&did)]. *)
Definition ddtrace_stop (tsleep : client -> Z) (kern : kernel)
  : outcome stopped :=
  kern' <-- stop_buckets tsleep
              (take DDTRACE_NHASH_BUCKETS (ddtrace_hashtbl kern)) kern ;;;
  let tbl :=
    replicate (length (take DDTRACE_NHASH_BUCKETS (ddtrace_hashtbl kern))) []
    ++ drop DDTRACE_NHASH_BUCKETS (ddtrace_hashtbl kern) in
  Ok {| destroyed := tbl;
        destroyed_mask := ddtrace_hashmask kern';
        dist_unregistered := true;
        stopped_traceq := vtdtr_traceq kern';
        stopped_kthreads := kthreads kern';
        stopped_nowait := nowait kern';
        stopped_klog := klog kern' |}.
End Registry.

(** ** The user-space consumer, [ddtrace_consumer.c] *)

Module Consumer.

(** [rd_kafka_resp_err_t], the values the consumer tells apart. *)
Inductive rd_kafka_resp_err_t : Type :=
| RD_KAFKA_RESP_ERR_NO_ERROR
| RD_KAFKA_RESP_ERR__QUEUE_FULL
| RD_KAFKA_RESP_ERR__PARTITION_EOF
| RD_KAFKA_RESP_ERR_OTHER (code : Z).

Definition is_no_error (e : rd_kafka_resp_err_t) : bool :=
  match e with RD_KAFKA_RESP_ERR_NO_ERROR => true | _ => false end.
Definition is_queue_full (e : rd_kafka_resp_err_t) : bool :=
  match e with RD_KAFKA_RESP_ERR__QUEUE_FULL => true | _ => false end.

(** [rd_kafka_message_t]; [None] is a [NULL] pointer. The key is
    [key_len] bytes and carries no terminator. *)
Record rd_kafka_message : Type := {
  err : rd_kafka_resp_err_t;
  payload : option (list byte);
  len : Z;
  key : option (list byte);
  key_len : Z
}.

(** The buffer descriptor [dtc_get_buf] fills in, with the block behind
    [dtbd_data] ([None] for [NULL]). *)
Record bufdesc : Type := {
  dtbd_data : option (list byte);
  dtbd_size : Z;
  dtbd_cpu : Z
}.

(** [strncmp(s1, s2, n)]: at most [n] characters are compared, and the
    comparison stops behind a terminator; a list that has ended reads as
    its terminator. *)
Fixpoint strncmp (s1 s2 : list byte) (n : nat) : Z :=
  match n with
  | O => 0
  | S n' =>
    let c1 := byte_val (hd x00 s1) in
    let c2 := byte_val (hd x00 s2) in
    if c1 =? c2 then
      if c1 =? 0 then 0 else strncmp (tl s1) (tl s2) n'
    else c1 - c2
  end.

(** The literal ["ddtrace"]. *)
Definition ddtrace_key : list byte := [x64; x64; x74; x72; x61; x63; x65].

(** [dt_zalloc(dtp, size)]: a zeroed block of [size] bytes, or [NULL]. *)
Definition dt_zalloc (alloc : list bool) (size : Z)
  : option (list byte) * list bool :=
  let (got, alloc) := alloc_next alloc in
  (if got then Some (replicate (Z.to_nat size) x00) else None, alloc).

(** [memcpy(dst, src, n)] on the contents of the two blocks; a [NULL]
    source is read as no bytes. *)
Definition memcpy (dst src : list byte) (n : Z) : list byte :=
  take (Z.to_nat n) src ++ drop (Z.to_nat n) dst.

(** [dtc_get_buf]: [rkmessage] is what [rd_kafka_consume] returned. The
    result is the return value, [*bufp] as far as it was stored, and the
    allocator. *)
Definition dtc_get_buf (alloc : list bool) (cpu : Z)
  (rkmessage : option rd_kafka_message) : Z * option bufdesc * list bool :=
  match alloc_next alloc with
  | (false, alloc) => (-1, None, alloc)
  | (true, alloc) =>
    (* [buf = dt_zalloc(dtp, sizeof( *buf))]: every field reads zero *)
    let buf := {| dtbd_data := None; dtbd_size := 0; dtbd_cpu := 0 |} in
    match rkmessage with
    | None => (0, Some buf, alloc)
    | Some m =>
      if is_no_error (err m) && (0 <? len m) then
        match key m with
        | Some k =>
          if strncmp k ddtrace_key (Z.to_nat (key_len m)) =? 0 then
            match dt_zalloc alloc (len m) with
            | (None, alloc) => (-1, None, alloc)
            | (Some block, alloc) =>
              (0,
               Some {| dtbd_data :=
                         Some (memcpy block (default [] (payload m)) (len m));
                       dtbd_size := len m;
                       dtbd_cpu := cpu |},
               alloc)
            end
          else (0, Some buf, alloc)   (* [buf->dtbd_size = 0] *)
        | None => (0, Some buf, alloc)
        end
      else (0, Some buf, alloc)
    end
  end.

(** *** [dtc_buffered_handler] *)

Inductive handler_event : Type :=
| EvProduce (payload : list byte)    (* [rd_kafka_produce] is called *)
| EvFailed (e : rd_kafka_resp_err_t) (* "Failed to produce to topic" *)
| EvPoll (timeout_ms : Z)            (* [rd_kafka_poll(tx_rk, ...)] *)
| EvEnqueued.                        (* "Enqueued message" *)

(** How the handler left the message it tried to produce. *)
Inductive produced : Type :=
| Enqueued
| Dropped (e : rd_kafka_resp_err_t).

(** The [retry:] loop. The broker is the list of the answers its coming
    [rd_kafka_produce] calls give ([RD_KAFKA_RESP_ERR_NO_ERROR] for a
    message taken, anything else for [-1] with that last error); [None]
    says the handler is still in the loop when the answers run out. *)
Fixpoint produce_retry (broker : list rd_kafka_resp_err_t)
  (msg : list byte)
  : option (list handler_event * produced * list rd_kafka_resp_err_t) :=
  match broker with
  | [] => None
  | e :: broker' =>
    if is_no_error e then Some ([EvProduce msg; EvEnqueued], Enqueued, broker')
    else if is_queue_full e then
      match produce_retry broker' msg with
      | Some (evs, r, rest) =>
        Some (EvProduce msg :: EvFailed e :: EvPoll 1000 :: evs, r, rest)
      | None => None
      end
    else Some ([EvProduce msg; EvFailed e], Dropped e, broker')
  end.

(** The function-static [output_buf] ([None] for [NULL]) with the bytes
    gathered so far, and the broker. *)
Record handler_state : Type := HandlerState {
  output_buf : option (list byte);
  broker : list rd_kafka_resp_err_t
}.

Inductive handler_result : Type :=
| Returned (rc : Z) (evs : list handler_event) (sent : option produced)
           (s : handler_state)
| Retrying
| Asserted (msg : string).

Definition open_brace : Z := 123.
Definition close_brace : Z := 125.

(** Modelled from the spec: dl_bbuf_new_auto of the buffer library
    [dl_bbuf], which the sources do not carry: a fresh, empty "message
    buffer". *)
Definition dl_bbuf_new_auto : option (list byte) := Some [].

(** Modelled from the spec: dl_bbuf_bcat of [dl_bbuf]: the buffer
    "accumulates fragments"; appending to a buffer that does not exist is
    taken to trip the library's own assertion. *)
Definition dl_bbuf_bcat (self : option (list byte)) (source : list byte)
  (length : nat) : outcome (list byte) :=
  match self with
  | Some acc => Ok (acc ++ take length source)
  | None => Panic "dl_bbuf_bcat on a NULL buffer"
  end.

(** [buffered] is [buf_data->dtbda_buffered], a C string. The bytes handed
    to [rd_kafka_produce] are [dl_bbuf_data(output_buf)] up to
    [dl_bbuf_pos(output_buf)], all that was gathered. *)
Definition dtc_buffered_handler (buffered : list byte) (s : handler_state)
  : handler_result :=
  let first := byte_val (hd x00 buffered) in
  let opened :=
    if first =? open_brace then
      DL_ASSERT (match output_buf s with None => true | Some _ => false end)
        "Output buffer should be NULL at the start of message." ;;;
      Ok dl_bbuf_new_auto
    else Ok (output_buf s) in
  let buf_len := strlen buffered in
  match b <-- opened ;;; dl_bbuf_bcat b buffered buf_len with
  | Panic m => Asserted m
  | Ok acc =>
    if first =? close_brace then
      match produce_retry (broker s) acc with
      | None => Retrying
      | Some (evs, r, rest) =>
        Returned 0 evs (Some r) (HandlerState None rest)
      end
    else Returned 0 [] None (HandlerState (Some acc) (broker s))
  end.

(** One refused attempt of the [retry:] loop, as events. *)
Definition queue_full_round (msg : list byte) : list handler_event :=
  [EvProduce msg; EvFailed RD_KAFKA_RESP_ERR__QUEUE_FULL; EvPoll 1000].

Definition is_poll (e : handler_event) : bool :=
  match e with EvPoll _ => true | _ => false end.

End Consumer.

(** * Vocabulary of the statements and example values *)

(** Example values for the constants of the headers. *)
Definition example_headers : headers :=
  {| DTRACE_EPIDNONE := 0;
     DTRACEBUF_RING := 1; DTRACEBUF_FILL := 2; DTRACEBUF_NOSWITCH := 4;
     DTRACEOPT_BUFPOLICY := 8; DTRACEOPT_DDTRACEARG := 30;
     DTRACEOPT_BUFPOLICY_SWITCH := 2; DTRACEOPT_UNSET := -2;
     DL_MTU := 2048;
     DTRACE_PROVNAMELEN := 64; DTRACE_MODNAMELEN := 64;
     DTRACE_FUNCNAMELEN := 192; DTRACE_NAMELEN := 64;
     DTRACEACT_ISAGG := fun kind => Z.land kind 65280 =? 1792 |}.

(** A state with one enabled probe, id [1], whose records are [n] bytes. *)
Definition one_probe_size (n : Z) (_ : dtrace_state) (epid : Z) : Z :=
  if epid =? 1 then n else 0.

Definition example_options (opt : Z) : Z :=
  if opt =? 8 then 2 else if opt =? 30 then 5 else 0.

(** The probe [a:b:c:d], enabled as id [1] with one recording action. *)
Definition example_probe : dtrace_probe :=
  {| dtpr_id := 1; dtpv_name := [x61]; dtpr_mod := [x62];
     dtpr_func := [x63]; dtpr_name := [x64] |}.

Definition example_ecb : dtrace_ecb :=
  {| dte_epid := 1; dte_probe := Some example_probe; dte_uarg := 0;
     dte_size := 8;
     dte_action := [{| dta_kind := 1; dta_intuple := 0; dta_rec := 77 |}] |}.

Definition example_state (bufs : list dtrace_buffer) : dtrace_state :=
  {| dts_buffer := bufs; dts_errors := 0; dts_alive := 0; dts_epid := 2;
     dts_options := example_options;
     dts_nformats := 1; dts_formats := Some [Some [x25; x64]];
     dts_necbs := 2; dts_ecbs := Some [Some example_ecb; None] |}.

(** An 8-byte record of probe [1] and a filler. *)
Definition record8 : list byte := [x01; x00; x00; x00; xaa; xbb; xcc; xdd].
Definition filler : list byte := [x00; x00; x00; x00].

(** A CPU whose buffers were never allocated, and one whose active region
    holds 16 bytes written with 5 drops and 2 errors. *)
Definition unit_unallocated : dtrace_buffer :=
  {| dtb_offset := 0; dtb_flags := 0; dtb_drops := 0; dtb_errors := 0;
     dtb_tomax := NULL; dtb_xamot := NULL; dtb_xamot_offset := 0;
     dtb_xamot_drops := 0; dtb_xamot_errors := 0; dtb_switched := 0 |}.

Definition unit_written : dtrace_buffer :=
  {| dtb_offset := 16; dtb_flags := 0; dtb_drops := 5; dtb_errors := 2;
     dtb_tomax := 4096; dtb_xamot := 8192; dtb_xamot_offset := 0;
     dtb_xamot_drops := 0; dtb_xamot_errors := 0; dtb_switched := 0 |}.

(** An allocated CPU that has written nothing. *)
Definition unit_empty : dtrace_buffer :=
  {| dtb_offset := 0; dtb_flags := 0; dtb_drops := 0; dtb_errors := 0;
     dtb_tomax := 4096; dtb_xamot := 8192; dtb_xamot_offset := 0;
     dtb_xamot_drops := 0; dtb_xamot_errors := 0; dtb_switched := 0 |}.

Definition example_xcall (_ : Z) : dtrace_buffer -> dtrace_buffer :=
  dtrace_buffer_switch 100.

Definition example_desc0 : dtrace_bufdesc :=
  {| dtbd_size := 0; dtbd_cpu := 0; dtbd_errors := 0; dtbd_drops := 0;
     dtbd_data := NULL; dtbd_oldest := 0; dtbd_timestamp := 0 |}.

(** The module loaded, the trace queue in place and empty. *)
Definition example_kernel : kernel :=
  ddtrace_load (Kernel [] 0 (Some []) [] [] []).


(** The checks [ddtrace_open] makes before it allocates a client, all
    passing, and the two kernel services it then relies on succeeding:
    [handle] is the Dlog handle found behind the descriptor and [pid] the
    process [kproc_kthread_add] stores. *)
Definition open_checks_pass (hdr : headers)
  (dtrace_epid2size : dtrace_state -> Z -> Z) (env : open_env)
  (dist state : Z) (st : dtrace_state) (kern : kernel) (handle pid : Z)
  : Prop :=
  state <> NULL /\ dist <> NULL
  /\ (forall epid, 1 <= epid < dts_epid st ->
                   dtrace_epid2size st epid <= DL_MTU hdr)
  /\ dts_options st (DTRACEOPT_BUFPOLICY hdr) = DTRACEOPT_BUFPOLICY_SWITCH hdr
  /\ dts_options st (DTRACEOPT_DDTRACEARG hdr) <> DTRACEOPT_UNSET hdr
  /\ fget_locked env (to_int (dts_options st (DTRACEOPT_DDTRACEARG hdr)))
     = Some {| f_cdevpriv := Some {| cdpd_data := handle |} |}
  /\ handle <> NULL
  /\ hd true (nowait kern) = true
  /\ kproc_kthread_add env = (0, pid)
  /\ pid <> NULL.

(** A kernel in which [ddtrace_open] finds what it needs: descriptor 5
    leads to the Dlog handle 7, and the new thread belongs to process 9. *)
Definition example_env : open_env :=
  {| fget_locked := fun fd =>
       if fd =? 5 then Some {| f_cdevpriv := Some {| cdpd_data := 7 |} |}
       else None;
     kproc_kthread_add := (0, 9) |}.

(** Stands for [murmur3_32_hash] in the examples. *)
Definition example_hash (p : Z) : Z := p / 16.

(** The value of a computation that did not panic, [d] otherwise. *)
Definition value_or {A} (d : A) (c : outcome A) : A :=
  match c with
  | Ok a => a
  | Panic _ => d
  end.

(** One cycle over a single written unit. *)
Definition example_cycle : outcome (dtrace_state * kernel) :=
  ddtrace_buffer_switch example_headers example_xcall example_desc0
    (example_state [unit_written]) 7 example_kernel.

(** A second kernel service: the thread of a further open belongs to
    process 11. *)
Definition example_env2 : open_env :=
  {| fget_locked := fget_locked example_env; kproc_kthread_add := (0, 11) |}.

(** The DTrace state at address 4128, hashed to bucket 2, opened once. *)
Definition example_opened : kernel :=
  value_or example_kernel
    (ddtrace_open example_headers (one_probe_size 8) example_hash
       example_env 1 4128 (example_state []) example_kernel).

(** The events of the harvest cycles the worker runs on wakes that do not
    show the exit flag. *)
Definition harvest_cycles (wakes : list wake) : list thread_event :=
  concat (map (fun w => [EvWake; EvAlive (w_hrtime w); EvBufferSwitch]) wakes).

(** A wake without and a wake with the exit flag; no probe fires. *)
Definition wake_timer (t : Z) : wake :=
  {| w_exit := 0; w_hrtime := t; w_probes := fun bufs => bufs |}.
Definition wake_exit (t : Z) : wake :=
  {| w_exit := 1; w_hrtime := t; w_probes := fun bufs => bufs |}.

(** The export as it is compiled. *)
Definition metadata_compiled
  : dtrace_state -> Z -> list bool -> outcome (Z * list bool) :=
  ddtrace_persist_metadata example_headers None [Some example_probe] 1.

(** A worker on one allocated CPU that never writes: one timer wake, then
    the exit flag. *)
Definition example_run : outcome thread_run :=
  ddtrace_thread example_headers example_xcall metadata_compiled example_desc0
    (Client 9 7 4128 0) (example_state [unit_empty]) example_kernel
    ([wake_timer 10] ++ wake_exit 20 :: []).

(** A trace entry as [ddtrace_buffer_switch] makes them: it describes a
    region that is there and holds bytes. *)
Definition sound_entry (e : virtio_dtrace_trace) : Prop :=
  vt_size e <> 0 /\ vt_data e <> NULL.

(** A cross call that does not switch: the active pointer stays, and the
    standby one differs from it. *)
Definition xcall_stuck (dtrace_xcall : Z -> dtrace_buffer -> dtrace_buffer)
  : Prop :=
  forall cpu buf, dtb_tomax (dtrace_xcall cpu buf) = dtb_tomax buf.

Definition example_stuck_xcall (_ : Z) (buf : dtrace_buffer) : dtrace_buffer :=
  buf.

(** The liveness stamp after the harvest cycles of [timers]: the time of
    the last of them, [alive] when there was none. *)
Definition last_alive (alive : Z) (timers : list wake) : Z :=
  fold_left (fun _ w => w_hrtime w) timers alive.

(** A client that [ddtrace_close] for [state] walks past: it passes the
    integrity assertions and belongs to another state. *)
Definition passed_over (state : Z) (k : client) : Prop :=
  ddtrace_assert_integrity k = Ok tt /\ ddtrace_state k <> state.

(** The ways in which [ddtrace_open] finds no Dlog handle: the option is
    unset, the descriptor the option gives as an [int] is not open, it has
    no private data, or the private data holds no handle. *)
Definition no_dlog_handle (hdr : headers) (env : open_env)
  (st : dtrace_state) : Prop :=
  dts_options st (DTRACEOPT_DDTRACEARG hdr) = DTRACEOPT_UNSET hdr
  \/ fget_locked env (to_int (dts_options st (DTRACEOPT_DDTRACEARG hdr)))
     = None
  \/ (exists fp,
        fget_locked env (to_int (dts_options st (DTRACEOPT_DDTRACEARG hdr)))
          = Some fp
        /\ (f_cdevpriv fp = None
            \/ exists p, f_cdevpriv fp = Some p /\ cdpd_data p = NULL)).

(** What an open that was turned away leaves behind: the table, the
    threads and the trace queue as they were, and two more log lines, the
    second of high priority. *)
Definition turned_away (kern kern' : kernel) : Prop :=
  ddtrace_hashtbl kern' = ddtrace_hashtbl kern
  /\ kthreads kern' = kthreads kern
  /\ vtdtr_traceq kern' = vtdtr_traceq kern
  /\ exists text,
       klog kern' = klog kern ++ [LogEntry PRIO_LOW "ddtrace_open";
                                  LogEntry PRIO_HIGH text].

(** The shape [MOD_LOAD] gives the client table. *)
Definition registry_shape (kern : kernel) : Prop :=
  length (ddtrace_hashtbl kern) = DDTRACE_NHASH_BUCKETS
  /\ ddtrace_hashmask kern = 15.

(** The clients [ddtrace_stop] waits for. *)
Definition stop_clients (kern : kernel) : list client :=
  concat (take DDTRACE_NHASH_BUCKETS (ddtrace_hashtbl kern)).

(** A descriptor table without descriptor 5, and a state whose buffer
    policy is not "switch". *)
Definition example_env_closed : open_env :=
  {| fget_locked := fun _ => None; kproc_kthread_add := (0, 9) |}.

Definition example_state_ring : dtrace_state :=
  {| dts_buffer := []; dts_errors := 0; dts_alive := 0; dts_epid := 2;
     dts_options := fun opt => if opt =? 30 then 5 else 0;
     dts_nformats := 0; dts_formats := Some [];
     dts_necbs := 2; dts_ecbs := Some [Some example_ecb; None] |}.

(** Two clients of other states around one of the state at 4128, in
    bucket 2 of a loaded kernel. *)
Definition example_chain : list client :=
  [Client 3 7 4384 0; Client 9 7 4128 0; Client 5 7 4640 0;
   Client 11 7 4128 0].

Definition example_crowded : kernel :=
  set_hashtbl example_kernel
    (<[2%nat := example_chain]> (ddtrace_hashtbl example_kernel)).

(** A log that takes every message of the export: the calls are compiled
    out, or each of them returns [0]. *)
Definition log_accepts
  (dlog_produce : option (Z -> string -> dlog_payload -> Z)) : Prop :=
  forall hdl key p, produce_fails dlog_produce hdl key p = false.




(** The characters of the C string a block starts with, and the value of
    its first character. *)
Definition cstring (s : list byte) : list byte := take (strlen s) s.
Definition first_char (s : list byte) : Z := byte_val (hd x00 s).

(** A fragment of the middle of a message: it starts with neither brace. *)
Definition middle_fragment (f : list byte) : Prop :=
  first_char f <> Consumer.open_brace /\ first_char f <> Consumer.close_brace.

(** The handler called on one fragment after another, the way the
    formatted output reaches it: the events of all calls and the state
    left behind, [None] when a call does not return. *)
Fixpoint dtc_feed (fragments : list (list byte)) (s : Consumer.handler_state)
  : option (list Consumer.handler_event * Consumer.handler_state) :=
  match fragments with
  | [] => Some ([], s)
  | f :: rest =>
    match Consumer.dtc_buffered_handler f s with
    | Consumer.Returned _ evs _ s' =>
      match dtc_feed rest s' with
      | Some (evs', s'') => Some (evs ++ evs', s'')
      | None => None
      end
    | _ => None
    end
  end.

(** A key as the broker hands it over: no character of it is a
    terminator. *)
Definition plain_key (k : list byte) : Prop :=
  Forall (fun c => byte_val c <> 0) k.

(** A sound message: no error, a payload of [len] bytes, a key of
    [key_len] characters. *)
Definition sound_message (m : Consumer.rd_kafka_message) (k p : list byte)
  : Prop :=
  Consumer.err m = Consumer.RD_KAFKA_RESP_ERR_NO_ERROR
  /\ 0 < Consumer.len m
  /\ Consumer.key m = Some k
  /\ Consumer.key_len m = Z.of_nat (length k)
  /\ plain_key k
  /\ Consumer.payload m = Some p
  /\ Consumer.len m = Z.of_nat (length p).

(** The next two allocations give a block. *)
Definition two_blocks (alloc : list bool) : Prop :=
  fst (alloc_next alloc) = true
  /\ fst (alloc_next (snd (alloc_next alloc))) = true.

(** A message [dtc_get_buf] passes over: it has an error, no bytes, no key,
    or a key on which the bounded comparison is not [0]. *)
Definition passed_message (m : Consumer.rd_kafka_message) : Prop :=
  Consumer.err m <> Consumer.RD_KAFKA_RESP_ERR_NO_ERROR
  \/ Consumer.len m <= 0
  \/ Consumer.key m = None
  \/ exists k, Consumer.key m = Some k
               /\ Consumer.strncmp k Consumer.ddtrace_key
                    (Z.to_nat (Consumer.key_len m)) <> 0.

(** A message with the key ["ddtrace"] and three bytes of payload. *)
Definition example_message (k : list byte) : Consumer.rd_kafka_message :=
  {| Consumer.err := Consumer.RD_KAFKA_RESP_ERR_NO_ERROR;
     Consumer.payload := Some [x01; x02; x03];
     Consumer.len := 3;
     Consumer.key := Some k;
     Consumer.key_len := Z.of_nat (length k) |}.

(** Memory as the bytes at its addresses: the [size] bytes from [addr]
    on, and the bytes a trace entry describes. *)
Definition region (mem : Z -> byte) (addr size : Z) : list byte :=
  map mem (seqZ addr size).

Definition trace_bytes (mem : Z -> byte) (e : virtio_dtrace_trace)
  : list byte :=
  region mem (vt_data e) (vt_size e).

(** The trace entry that describes the region of a descriptor. *)
Definition trace_of (desc : dtrace_bufdesc) : virtio_dtrace_trace :=
  {| vt_size := dtbd_size desc; vt_cpu := dtbd_cpu desc;
     vt_errors := dtbd_errors desc; vt_drops := dtbd_drops desc;
     vt_data := dtbd_data desc; vt_oldest := dtbd_oldest desc |}.

(** What [ddtrace_persist_trace] asserts, holding: the trace queue is in
    place with [q] on it, the region is there and holds bytes, and the
    allocation of the entry gives a block. *)
Definition can_enqueue (kern : kernel) (desc : dtrace_bufdesc)
  (q : list virtio_dtrace_trace) : Prop :=
  vtdtr_traceq kern = Some q
  /\ dtbd_data desc <> NULL
  /\ dtbd_size desc <> 0
  /\ hd true (nowait kern) = true.

(** A memory that holds a record, a filler and a record again from
    address 4096 on, and the descriptor of that region. *)
Definition example_mem (addr : Z) : byte :=
  nth (Z.to_nat (addr - 4096)) (record8 ++ filler ++ record8) x00.

Definition example_region : dtrace_bufdesc :=
  {| dtbd_size := 20; dtbd_cpu := 0; dtbd_errors := 0; dtbd_drops := 0;
     dtbd_data := 4096; dtbd_oldest := 0; dtbd_timestamp := 0 |}.

(** The descriptor of a drained region of 2 MiB, half a principal buffer
    of the default size. *)
Definition example_large_region : dtrace_bufdesc :=
  {| dtbd_size := 2 * 1024 * 1024; dtbd_cpu := 0; dtbd_errors := 0;
     dtbd_drops := 0; dtbd_data := 4096; dtbd_oldest := 0;
     dtbd_timestamp := 0 |}.


(** The state of a worker at a wake: the probes that fired during the wait
    have written to the buffers. *)
Definition at_wake (w : wake) (st : dtrace_state) : dtrace_state :=
  set_dts_buffer st (w_probes w (dts_buffer st)).

(** What the timer wakes of a worker amount to: at each wake, in turn, the
    liveness stamp is set to the time of the wake and one harvest cycle is
    run. *)
Fixpoint worker_cycles (hdr : headers)
  (dtrace_xcall : Z -> dtrace_buffer -> dtrace_buffer)
  (desc0 : dtrace_bufdesc) (handle : Z) (timers : list wake)
  (st : dtrace_state) (kern : kernel) : outcome (dtrace_state * kernel) :=
  match timers with
  | [] => Ok (st, kern)
  | w :: timers' =>
    r <-- ddtrace_buffer_switch hdr dtrace_xcall desc0
            (set_dts_alive (at_wake w st) (w_hrtime w)) handle kern ;;;
    let (st', kern') := r in
    worker_cycles hdr dtrace_xcall desc0 handle timers' st' kern'
  end.

(** Probes that write 16 bytes, with 5 drops and 2 errors, to the active
    region of every CPU, and a wake that shows the exit flag after they
    fired. *)
Definition write16 (buf : dtrace_buffer) : dtrace_buffer :=
  {| dtb_offset := 16; dtb_flags := dtb_flags buf;
     dtb_drops := 5; dtb_errors := 2;
     dtb_tomax := dtb_tomax buf; dtb_xamot := dtb_xamot buf;
     dtb_xamot_offset := dtb_xamot_offset buf;
     dtb_xamot_drops := dtb_xamot_drops buf;
     dtb_xamot_errors := dtb_xamot_errors buf;
     dtb_switched := dtb_switched buf |}.



(** A timer wake before which the probes wrote 16 bytes. *)
Definition wake_timer_written (t : Z) : wake :=
  {| w_exit := 0; w_hrtime := t; w_probes := map write16 |}.

(** * Theorems *)

(** ** The hand-over of a drained region *)

Lemma ddtrace_persist_trace_ok :
  forall kern desc kern',
    ddtrace_persist_trace kern desc = Ok kern' ->
    ddtrace_hashtbl kern' = ddtrace_hashtbl kern
    /\ ddtrace_hashmask kern' = ddtrace_hashmask kern
    /\ kthreads kern' = kthreads kern
    /\ exists q e,
         vtdtr_traceq kern = Some q /\ vtdtr_traceq kern' = Some (q ++ [e])
         /\ sound_entry e.
Proof.
  intros kern desc kern' H. unfold ddtrace_persist_trace in H.
  destruct (negb (dtbd_data desc =? NULL)) eqn:Hdata; simpl in H;
    [|discriminate].
  destruct (negb (dtbd_size desc =? 0)) eqn:Hsize; simpl in H;
    [|discriminate].
  destruct (vtdtr_traceq kern) as [q|] eqn:Hq; [|discriminate].
  unfold malloc_nowait in H. simpl in H.
  destruct (alloc_next (nowait kern)) as [got rest]. simpl in H.
  destruct got; simpl in H; [|discriminate].
  rewrite Hdata in H. simpl in H.
  match type of H with
  | obind ?c _ = _ => destruct c as [[]|]
  end; simpl in H; [|discriminate].
  inversion H; subst. simpl.
  repeat (split; [reflexivity|]).
  eexists q, _. split; [reflexivity|]. split; [reflexivity|].
  apply negb_true_iff in Hdata, Hsize. apply Z.eqb_neq in Hdata, Hsize.
  split; assumption.
Qed.

(** The entry put on the queue is the descriptor's, field by field. *)
Lemma ddtrace_persist_trace_entry :
  forall kern desc kern' q,
    vtdtr_traceq kern = Some q ->
    ddtrace_persist_trace kern desc = Ok kern' ->
    vtdtr_traceq kern' = Some (q ++ [trace_of desc]).
Proof.
  intros kern desc kern' q Hq H. unfold ddtrace_persist_trace in H.
  destruct (negb (dtbd_data desc =? NULL)); simpl in H; [|discriminate].
  destruct (negb (dtbd_size desc =? 0)); simpl in H; [|discriminate].
  rewrite Hq in H.
  unfold malloc_nowait in H. simpl in H.
  destruct (alloc_next (nowait kern)) as [got rest]. simpl in H.
  destruct got; simpl in H; [|discriminate].
  destruct (negb (dtbd_data desc =? NULL)); simpl in H; [|discriminate].
  match type of H with
  | obind ?c _ = _ => destruct c as [[]|]
  end; simpl in H; [|discriminate].
  inversion H; subst. reflexivity.
Qed.

(** With its assertions holding, the function returns. *)
Lemma ddtrace_persist_trace_enqueues :
  forall kern desc q,
    can_enqueue kern desc q ->
    exists kern',
      ddtrace_persist_trace kern desc = Ok kern'
      /\ vtdtr_traceq kern' = Some (q ++ [trace_of desc]).
Proof.
  intros kern desc q (Hq & Hdata & Hsize & Hmem).
  assert (Hrun : exists kern', ddtrace_persist_trace kern desc = Ok kern').
  { unfold ddtrace_persist_trace.
    apply Z.eqb_neq in Hdata, Hsize. rewrite Hdata, Hsize. simpl.
    rewrite Hq. unfold malloc_nowait. simpl.
    destruct (nowait kern) as [|got rest]; simpl in *.
    - rewrite Hdata. simpl. rewrite length_app. simpl.
      replace (Z.of_nat (length q + 1) =? 0) with false
        by (symmetry; apply Z.eqb_neq; lia).
      simpl. eexists. reflexivity.
    - subst got. simpl. rewrite Hdata. simpl. rewrite length_app. simpl.
      replace (Z.of_nat (length q + 1) =? 0) with false
        by (symmetry; apply Z.eqb_neq; lia).
      simpl. eexists. reflexivity. }
  destruct Hrun as [kern' Hrun]. exists kern'. split; [exact Hrun|].
  now apply (ddtrace_persist_trace_entry kern desc kern' q).
Qed.



(** C2, as the claim has it, fails in its first half: no bound is applied
    to what [ddtrace_persist_trace] hands on. A drained region of 2 MiB is
    put on the trace queue as one entry of 2 MiB, above the record bound
    of 1 MiB and above the MTU of the log. *)
Lemma ddtrace_persist_trace_entry_over_bound :
  exists kern',
    ddtrace_persist_trace example_kernel example_large_region = Ok kern'
    /\ vtdtr_traceq kern' = Some [trace_of example_large_region]
    /\ ddtrace_record_bound < vt_size (trace_of example_large_region)
    /\ DL_MTU example_headers < vt_size (trace_of example_large_region).
Proof.
  eexists. split; [reflexivity|]. split; [reflexivity|].
  split; reflexivity.
Qed.

(** C2, amended: the function as built hands every drained region on
    whole. The one entry it queues starts where the region starts and has
    the region's size, so what it describes is the records of the region,
    all of them and each of them whole; its size is the size of the
    region, whatever that is. *)
Theorem ddtrace_persist_trace_whole_region :
  forall mem kern desc q (records : list (list byte)),
    can_enqueue kern desc q ->
    region mem (dtbd_data desc) (dtbd_size desc) = concat records ->
    exists kern' e,
      ddtrace_persist_trace kern desc = Ok kern'
      /\ vtdtr_traceq kern' = Some (q ++ [e])
      /\ vt_data e = dtbd_data desc
      /\ vt_size e = dtbd_size desc
      /\ trace_bytes mem e = concat records.
Proof.
  intros mem kern desc q records Hcan Hrecords.
  destruct (ddtrace_persist_trace_enqueues kern desc q Hcan)
    as (kern' & Hrun & Hqueue).
  exists kern', (trace_of desc).
  split; [exact Hrun|]. split; [exact Hqueue|].
  split; [reflexivity|]. split; [reflexivity|exact Hrecords].
Qed.

(** The amended C2 at work on the region of the three records. *)
Lemma ddtrace_persist_trace_whole_region_witness :
  exists kern' e,
    ddtrace_persist_trace example_kernel example_region = Ok kern'
    /\ vtdtr_traceq kern' = Some ([] ++ [e])
    /\ vt_data e = dtbd_data example_region
    /\ vt_size e = dtbd_size example_region
    /\ trace_bytes example_mem e = concat [record8; filler; record8].
Proof.
  apply (ddtrace_persist_trace_whole_region example_mem example_kernel
           example_region [] [record8; filler; record8]).
  - unfold can_enqueue. split; [reflexivity|].
    split; [discriminate|]. split; [discriminate|reflexivity].
  - reflexivity.
Defined.

(** ** The buffer switch *)






Section HarvestFacts.
Variable hdr : headers.
Variable dtrace_xcall : Z -> dtrace_buffer -> dtrace_buffer.

End HarvestFacts.


Section HarvestQueue.
Variable hdr : headers.
Variable dtrace_xcall : Z -> dtrace_buffer -> dtrace_buffer.

End HarvestQueue.

Lemma ddtrace_buffer_switch_inv :
  forall hdr dtrace_xcall desc0 st handle kern st' kern',
    ddtrace_buffer_switch hdr dtrace_xcall desc0 st handle kern
      = Ok (st', kern') ->
    exists bufs errors,
      buffer_switch_from hdr dtrace_xcall 0 (dts_buffer st) (dts_errors st)
        desc0 kern = Ok (bufs, errors, kern')
      /\ st' = set_dts_errors (set_dts_buffer st bufs) errors.
Proof.
  intros hdr xcall desc0 st handle kern st' kern' H.
  unfold ddtrace_buffer_switch in H.
  destruct (negb (handle =? NULL)); simpl in H; [|discriminate].
  match type of H with
  | obind ?c _ = _ => destruct c as [[[bufs errors] k]|] eqn:Hloop
  end; simpl in H; [|discriminate].
  inversion H; subst. exists bufs, errors. split; reflexivity.
Qed.



(** C6. The claim: a unit whose active pointer is [NULL] is skipped, and
    the units after it are still processed in the same cycle. The loop
    leaves at such a unit with [break] (the path of a switch that did not
    take place uses [continue]), so no later unit is visited. With CPU 0
    unallocated and CPU 1 holding 16 bytes, the cycle changes nothing and
    puts nothing on the trace queue; the same written unit placed before
    the unallocated one is switched and drained. *)
Theorem buffer_switch_stops_at_unallocated_unit :
  ddtrace_buffer_switch example_headers example_xcall example_desc0
    (example_state [unit_unallocated; unit_written]) 7 example_kernel
  = Ok (example_state [unit_unallocated; unit_written], example_kernel)
  /\ exists st' kern',
       ddtrace_buffer_switch example_headers example_xcall example_desc0
         (example_state [unit_written; unit_unallocated]) 7 example_kernel
       = Ok (st', kern')
       /\ dts_buffer st' = [example_xcall 0 unit_written; unit_unallocated]
       /\ vtdtr_traceq kern' =
          Some [{| vt_size := 16; vt_cpu := 0; vt_errors := 2; vt_drops := 5;
                   vt_data := 4096; vt_oldest := 0 |}].
Proof.
  split; [reflexivity|].
  eexists _, _. split; [reflexivity|]. split; reflexivity.
Qed.




(** ** The client registry *)

Lemma find_all_false {A} (f : A -> bool) (l : list A) :
  (forall x, In x l -> f x = false) -> find f l = None.
Proof.
  induction l as [|a l IH]; intros H; simpl; [reflexivity|].
  rewrite (H a (or_introl eq_refl)). apply IH.
  intros x Hx. apply H. now right.
Qed.

Lemma open_epids_spec (st : dtrace_state) (epid : Z) :
  In epid (open_epids st) <-> 1 <= epid < dts_epid st.
Proof.
  unfold open_epids. rewrite <- list_elem_of_In, elem_of_seqZ. lia.
Qed.

Section RegistryFacts.
Variable hdr : headers.
Variable dtrace_epid2size : dtrace_state -> Z -> Z.
Variable murmur3_32_hash : Z -> Z.

Local Abbreviation open :=
  (ddtrace_open hdr dtrace_epid2size murmur3_32_hash).

(** When every check passes the open allocates a client, starts its
    thread and puts the client at the head of its chain. *)
Lemma ddtrace_open_registers :
  forall env dist state st kern handle pid,
    open_checks_pass hdr dtrace_epid2size env dist state st kern handle pid ->
    exists kern',
      open env dist state st kern = Ok kern'
      /\ ddtrace_hashtbl kern'
         = list_insert_head (ddtrace_hashtbl kern)
             (ddtrace_bucket murmur3_32_hash kern state)
             (Client pid handle state 0)
      /\ kthreads kern' = kthreads kern ++ [Client pid handle state 0]
      /\ ddtrace_hashmask kern' = ddtrace_hashmask kern
      /\ vtdtr_traceq kern' = vtdtr_traceq kern
      /\ nowait kern' = tl (nowait kern).
Proof.
  intros env dist state st kern handle pid
    (Hs & Hd & Hmtu & Hpol & Harg & Hfd & Hh & Hmem & Hthr & Hpid).
  unfold ddtrace_open.
  apply Z.eqb_neq in Hs, Hd, Harg, Hh, Hpid.
  rewrite Hs, Hd. simpl.
  rewrite find_all_false.
  2:{ intros epid Hin. apply open_epids_spec in Hin.
      apply Z.ltb_ge. now apply Hmtu. }
  rewrite Hpol, Z.eqb_refl, Harg, Hfd. simpl. rewrite Hh.
  unfold malloc_nowait. simpl.
  destruct (nowait kern) as [|got rest] eqn:Hnw; simpl in *.
  - rewrite Hthr. simpl. unfold ddtrace_assert_integrity. simpl.
    rewrite Hh, Hs, Hpid. simpl.
    eexists. split; [reflexivity|]. simpl. repeat split; reflexivity.
  - subst got. simpl. rewrite Hthr. simpl.
    unfold ddtrace_assert_integrity. simpl.
    rewrite Hh, Hs, Hpid. simpl.
    eexists. split; [reflexivity|]. simpl. repeat split; reflexivity.
Qed.

(** An open that returns either left the table, the threads and the
    trace queue as they were, or passed the size check of every enabled
    probe and added one client. *)
Lemma ddtrace_open_inv :
  forall env dist state st kern kern',
    open env dist state st kern = Ok kern' ->
    ddtrace_hashmask kern' = ddtrace_hashmask kern
    /\ vtdtr_traceq kern' = vtdtr_traceq kern
    /\ ((ddtrace_hashtbl kern' = ddtrace_hashtbl kern
         /\ kthreads kern' = kthreads kern)
        \/ (exists k,
              ddtrace_state k = state /\ ddtrace_exit k = 0
              /\ ddtrace_assert_integrity k = Ok tt
              /\ kthreads kern' = kthreads kern ++ [k]
              /\ ddtrace_hashtbl kern'
                 = list_insert_head (ddtrace_hashtbl kern)
                     (ddtrace_bucket murmur3_32_hash kern state) k
              /\ forall epid, 1 <= epid < dts_epid st ->
                   dtrace_epid2size st epid <= DL_MTU hdr)).
Proof.
  intros env dist state st kern kern' H.
  unfold ddtrace_open in H.
  destruct (negb (state =? NULL)); simpl in H; [|discriminate].
  destruct (negb (dist =? NULL)); simpl in H; [|discriminate].
  destruct (find _ (open_epids st)) eqn:Hfind.
  { inversion H; subst. simpl. auto. }
  destruct (negb _); [inversion H; subst; simpl; auto|].
  destruct (_ =? DTRACEOPT_UNSET hdr); [inversion H; subst; simpl; auto|].
  destruct (fget_locked env _) as [fp|]; [|inversion H; subst; simpl; auto].
  destruct (f_cdevpriv fp) as [p|]; [|inversion H; subst; simpl; auto].
  destruct (cdpd_data p =? NULL); [inversion H; subst; simpl; auto|].
  unfold malloc_nowait in H. simpl in H.
  assert (Hsizes : forall epid, 1 <= epid < dts_epid st ->
                     dtrace_epid2size st epid <= DL_MTU hdr).
  { intros epid Hr. apply open_epids_spec in Hr.
    apply (find_none _ _ Hfind) in Hr. now apply Z.ltb_ge in Hr. }
  destruct (nowait kern) as [|got rest]; simpl in H.
  - destruct (kproc_kthread_add env) as [rc pid]. simpl in H.
    destruct (rc =? 0); simpl in H; [|discriminate].
    match type of H with
    | obind ?c _ = _ => destruct c as [[]|] eqn:Hint
    end; simpl in H; [|discriminate].
    inversion H; subst. simpl.
    split; [reflexivity|]. split; [reflexivity|]. right.
    exists (Client pid (cdpd_data p) state 0).
    split; [reflexivity|]. split; [reflexivity|].
    split; [exact Hint|]. split; [reflexivity|].
    split; [reflexivity|exact Hsizes].
  - destruct got; simpl in H; [|discriminate].
    destruct (kproc_kthread_add env) as [rc pid]. simpl in H.
    destruct (rc =? 0); simpl in H; [|discriminate].
    match type of H with
    | obind ?c _ = _ => destruct c as [[]|] eqn:Hint
    end; simpl in H; [|discriminate].
    inversion H; subst. simpl.
    split; [reflexivity|]. split; [reflexivity|]. right.
    exists (Client pid (cdpd_data p) state 0).
    split; [reflexivity|]. split; [reflexivity|].
    split; [exact Hint|]. split; [reflexivity|].
    split; [reflexivity|exact Hsizes].
Qed.

(** An enabled probe whose records are larger than [DL_MTU] makes the
    open return with nothing but two log lines added. *)
Lemma ddtrace_open_rejects_large_record :
  forall env dist state st kern epid,
    state <> NULL -> dist <> NULL ->
    1 <= epid < dts_epid st ->
    DL_MTU hdr < dtrace_epid2size st epid ->
    open env dist state st kern
    = Ok (DLOGTR PRIO_HIGH "DTrace record size is greater than log MTU"
            (DLOGTR PRIO_LOW "ddtrace_open" kern)).
Proof.
  intros env dist state st kern epid Hs Hd Hr Hbig.
  unfold ddtrace_open.
  apply Z.eqb_neq in Hs, Hd. rewrite Hs, Hd. simpl.
  destruct (find _ (open_epids st)) eqn:Hfind; [reflexivity|].
  apply open_epids_spec in Hr.
  apply (find_none _ _ Hfind) in Hr.
  apply Z.ltb_ge in Hr. lia.
Qed.

(** [ddtrace_close] on a chain whose head is a sound client of the state
    removes that client. *)
Lemma close_chain_head :
  forall state k chain,
    ddtrace_state k = state ->
    ddtrace_assert_integrity k = Ok tt ->
    close_chain state (k :: chain) = Ok (Some k, chain).
Proof.
  intros state k chain Hs Hint. simpl. rewrite Hint. simpl.
  rewrite Hs, Z.eqb_refl. reflexivity.
Qed.
End RegistryFacts.

(** C3, as the claim has it, fails: [ddtrace_open] never looks the state up
    in the table. A second open of the state at 4128 returns without a
    high-priority log line, starts a second thread, and leaves two clients
    of that state in bucket 2. *)
Lemma ddtrace_open_twice_two_clients :
  ddtrace_hashtbl example_opened !!! 2%nat = [Client 9 7 4128 0]
  /\ exists kern2,
       ddtrace_open example_headers (one_probe_size 8) example_hash
         example_env2 1 4128 (example_state []) example_opened = Ok kern2
       /\ ddtrace_hashtbl kern2 !!! 2%nat
          = [Client 11 7 4128 0; Client 9 7 4128 0]
       /\ kthreads kern2 = [Client 9 7 4128 0; Client 11 7 4128 0]
       /\ ddtrace_hashtbl kern2 <> ddtrace_hashtbl example_opened
       /\ Forall (fun l => log_prio l = PRIO_LOW) (klog kern2).
Proof.
  split; [reflexivity|].
  eexists. split; [reflexivity|].
  split; [reflexivity|]. split; [reflexivity|].
  split; [vm_compute; discriminate|].
  vm_compute. repeat constructor.
Qed.

(** C3, amended: an open of a state that already has a client is not
    refused on that ground; when its checks pass it registers a further
    client of the state at the head of the state's chain and starts a
    further thread. The client that was there stays in the chain, behind
    the new one and unchanged, and no other chain changes. *)
Theorem ddtrace_open_present_state_adds_client :
  forall hdr dtrace_epid2size murmur3_32_hash env dist state st kern
         handle pid k0,
    (ddtrace_bucket murmur3_32_hash kern state
       < length (ddtrace_hashtbl kern))%nat ->
    In k0 (ddtrace_hashtbl kern
             !!! ddtrace_bucket murmur3_32_hash kern state) ->
    ddtrace_state k0 = state ->
    open_checks_pass hdr dtrace_epid2size env dist state st kern handle pid ->
    exists kern',
      ddtrace_open hdr dtrace_epid2size murmur3_32_hash env dist state st kern
        = Ok kern'
      /\ ddtrace_hashtbl kern' !!! ddtrace_bucket murmur3_32_hash kern state
         = Client pid handle state 0
           :: ddtrace_hashtbl kern
                !!! ddtrace_bucket murmur3_32_hash kern state
      /\ In k0 (ddtrace_hashtbl kern'
                  !!! ddtrace_bucket murmur3_32_hash kern state)
      /\ (forall i, i <> ddtrace_bucket murmur3_32_hash kern state ->
            ddtrace_hashtbl kern' !!! i = ddtrace_hashtbl kern !!! i)
      /\ kthreads kern' = kthreads kern ++ [Client pid handle state 0].
Proof.
  intros hdr e2s hash env dist state st kern handle pid k0 Hb Hin Hk0 Hok.
  destruct (ddtrace_open_registers hdr e2s hash _ _ _ _ _ _ _ Hok)
    as (kern' & Hopen & Htbl & Hthr & _ & _ & _).
  exists kern'. split; [exact Hopen|].
  assert (Hhead :
    ddtrace_hashtbl kern' !!! ddtrace_bucket hash kern state
    = Client pid handle state 0
      :: ddtrace_hashtbl kern !!! ddtrace_bucket hash kern state).
  { rewrite Htbl. unfold list_insert_head.
    now rewrite list_lookup_total_alter_eq. }
  split; [exact Hhead|].
  split; [rewrite Hhead; now right|].
  split; [|exact Hthr].
  intros i Hi. rewrite Htbl. unfold list_insert_head.
  apply list_lookup_total_alter_ne. congruence.
Qed.

(** The second open of the example passes every check. *)
Lemma example_checks_pass :
  open_checks_pass example_headers (one_probe_size 8) example_env2 1 4128
    (example_state []) example_opened 7 11.
Proof.
  unfold open_checks_pass.
  split; [discriminate|]. split; [discriminate|].
  split.
  { intros epid Hr. unfold one_probe_size.
    destruct (epid =? 1); simpl; lia. }
  split; [reflexivity|]. split; [discriminate|].
  split; [reflexivity|]. split; [discriminate|].
  split; [reflexivity|]. split; [reflexivity|discriminate].
Defined.

(** The amended C3 at work: the second open of the state at 4128. *)
Lemma ddtrace_open_present_state_adds_client_witness :
  exists kern',
    ddtrace_open example_headers (one_probe_size 8) example_hash
      example_env2 1 4128 (example_state []) example_opened = Ok kern'
    /\ ddtrace_hashtbl kern' !!! 2%nat
       = [Client 11 7 4128 0; Client 9 7 4128 0].
Proof.
  destruct (ddtrace_open_present_state_adds_client
              example_headers (one_probe_size 8) example_hash example_env2
              1 4128 (example_state []) example_opened 7 11
              (Client 9 7 4128 0))
    as (kern' & Hopen & Hhead & _).
  - vm_compute. lia.
  - left. reflexivity.
  - reflexivity.
  - exact example_checks_pass.
  - exists kern'. split; [exact Hopen|exact Hhead].
Defined.

(** C4. [ddtrace_open] compares the record size of every enabled probe id,
    [1 .. dts_epid - 1], with [DL_MTU] before it does anything else. If
    one is larger the open returns without a client, a thread, an
    allocation or a trace entry. An open that adds a client or starts a
    thread has found every enabled probe within [DL_MTU]: the worker, and
    with it every export and every harvest, only exists behind the
    check. *)
Theorem ddtrace_open_checks_record_sizes :
  forall hdr dtrace_epid2size murmur3_32_hash env dist state st kern,
    state <> NULL -> dist <> NULL ->
    (forall epid,
       1 <= epid < dts_epid st -> DL_MTU hdr < dtrace_epid2size st epid ->
       exists kern',
         ddtrace_open hdr dtrace_epid2size murmur3_32_hash env dist state
           st kern = Ok kern'
         /\ ddtrace_hashtbl kern' = ddtrace_hashtbl kern
         /\ kthreads kern' = kthreads kern
         /\ nowait kern' = nowait kern
         /\ vtdtr_traceq kern' = vtdtr_traceq kern)
    /\ (forall kern',
          ddtrace_open hdr dtrace_epid2size murmur3_32_hash env dist state
            st kern = Ok kern' ->
          kthreads kern' <> kthreads kern
          \/ ddtrace_hashtbl kern' <> ddtrace_hashtbl kern ->
          forall epid, 1 <= epid < dts_epid st ->
                       dtrace_epid2size st epid <= DL_MTU hdr).
Proof.
  intros hdr e2s hash env dist state st kern Hs Hd. split.
  - intros epid Hr Hbig.
    rewrite (ddtrace_open_rejects_large_record hdr e2s hash env dist state
               st kern epid Hs Hd Hr Hbig).
    eexists. split; [reflexivity|]. simpl. repeat split; reflexivity.
  - intros kern' Hopen Hnew.
    destruct (ddtrace_open_inv hdr e2s hash _ _ _ _ _ _ Hopen)
      as (_ & _ & [[Htbl Hthr] | (k & _ & _ & _ & _ & _ & Hsizes)]);
      [|exact Hsizes].
    destruct Hnew as [Hnew|Hnew]; contradiction.
Qed.

(** C4 at work: 4096-byte records are refused with [DL_MTU = 2048]; the
    open of the example, which started a thread, had 8-byte records. *)
Lemma ddtrace_open_checks_record_sizes_witness :
  (exists kern',
     ddtrace_open example_headers (one_probe_size 4096) example_hash
       example_env 1 4128 (example_state []) example_kernel = Ok kern'
     /\ ddtrace_hashtbl kern' = ddtrace_hashtbl example_kernel
     /\ kthreads kern' = kthreads example_kernel
     /\ nowait kern' = nowait example_kernel
     /\ vtdtr_traceq kern' = vtdtr_traceq example_kernel)
  /\ one_probe_size 8 (example_state []) 1 <= DL_MTU example_headers.
Proof.
  assert (Hs : 4128 <> NULL) by discriminate.
  assert (Hd : 1 <> NULL) by discriminate.
  split.
  - destruct (ddtrace_open_checks_record_sizes example_headers
                (one_probe_size 4096) example_hash example_env 1 4128
                (example_state []) example_kernel Hs Hd) as [Hreject _].
    apply (Hreject 1); [simpl; lia | vm_compute; reflexivity].
  - destruct (ddtrace_open_checks_record_sizes example_headers
                (one_probe_size 8) example_hash example_env 1 4128
                (example_state []) example_kernel Hs Hd) as [_ Hpass].
    apply (Hpass example_opened).
    + reflexivity.
    + left. vm_compute. discriminate.
    + simpl. lia.
Defined.

(** ** The worker *)


Section WorkerFacts.
Variable hdr : headers.
Variable dtrace_xcall : Z -> dtrace_buffer -> dtrace_buffer.
Variable desc0 : dtrace_bufdesc.

(** The loop runs one cycle per wake until the first wake that shows the
    exit flag, and leaves there. *)
Lemma ddtrace_thread_loop_until_exit :
  forall timers w rest k st kern evs st' kern' broke,
    Forall (fun w => w_exit w = 0) timers ->
    w_exit w <> 0 ->
    ddtrace_thread_loop hdr dtrace_xcall desc0 (timers ++ w :: rest)
      k st kern = Ok (evs, st', kern', broke) ->
    broke = true
    /\ evs = harvest_cycles timers ++ [EvWake; EvExitObserved].
Proof.
  induction timers as [|w0 timers IH];
    intros w rest k st kern evs st' kern' broke Hzero Hexit H; simpl in H.
  - apply Z.eqb_neq in Hexit. rewrite Hexit in H. simpl in H.
    inversion H; subst. split; reflexivity.
  - inversion Hzero as [|? ? Hw0 Hrest]; subst.
    rewrite Hw0 in H. simpl in H.
    match type of H with
    | obind ?c _ = _ => destruct c as [[st1 kern1]|] eqn:Hcycle
    end; simpl in H; [|discriminate].
    match type of H with
    | obind ?c _ = _ => destruct c as [[[[evs1 st2] kern2] b]|] eqn:Hloop
    end; simpl in H; [|discriminate].
    inversion H; subst.
    destruct (IH _ _ _ _ _ _ _ _ _ Hrest Hexit Hloop) as [Hb Hevs].
    subst. split; reflexivity.
Qed.
(** Up to the first wake that shows the exit flag the loop is the harvest
    cycles of its wakes, one after the other. *)
Lemma ddtrace_thread_loop_cycles :
  forall timers rest k st kern evs st' kern' broke,
    Forall (fun w => w_exit w = 0) timers ->
    ddtrace_thread_loop hdr dtrace_xcall desc0 (timers ++ rest) k st kern
      = Ok (evs, st', kern', broke) ->
    exists st1 kern1 evs',
      worker_cycles hdr dtrace_xcall desc0 (ddtrace_dlog_handle k)
        timers st kern = Ok (st1, kern1)
      /\ ddtrace_thread_loop hdr dtrace_xcall desc0 rest k st1 kern1
         = Ok (evs', st', kern', broke)
      /\ evs = harvest_cycles timers ++ evs'.
Proof.
  induction timers as [|w0 timers IH];
    intros rest k st kern evs st' kern' broke Hzero H.
  - exists st, kern, evs. repeat split. exact H.
  - inversion Hzero as [|? ? Hw0 Hrest]; subst.
    simpl in H. rewrite Hw0 in H. simpl in H.
    match type of H with
    | obind ?c _ = _ => destruct c as [[st1 kern1]|] eqn:Hcycle
    end; simpl in H; [|discriminate].
    match type of H with
    | obind ?c _ = _ => destruct c as [[[[evs1 st2] kern2] b]|] eqn:Hloop
    end; simpl in H; [|discriminate].
    inversion H; subst.
    destruct (IH _ _ _ _ _ _ _ _ Hrest Hloop)
      as (st3 & kern3 & evs' & Hcycles & Htail & ->).
    assert (Hc : ddtrace_buffer_switch hdr dtrace_xcall desc0
                   (set_dts_alive (at_wake w0 st) (w_hrtime w0))
                   (ddtrace_dlog_handle k) kern = Ok (st1, kern1))
      by exact Hcycle.
    exists st3, kern3, evs'. split; [|split; [exact Htail|reflexivity]].
    cbn [worker_cycles]. rewrite Hc. simpl. exact Hcycles.
Qed.
End WorkerFacts.

Section MetadataFacts.
Variable hdr : headers.
Variable dtrace_probes : list (option dtrace_probe).
Variable dtrace_nprobes : Z.

Lemma persist_formats_compiled :
  forall st hdl fmts rc,
    persist_formats None st hdl fmts = Ok rc -> rc = 0.
Proof.
  induction fmts as [|fmt fmts IH]; intros rc H; simpl in H.
  - now inversion H.
  - destruct (dts_formats st) as [formats|]; [|discriminate].
    destruct (formats !! Z.to_nat (fmt - 1)) as [[fmt_str|]|];
      try discriminate.
    now apply IH.
Qed.

Lemma persist_eprobes_compiled :
  forall st hdl epids alloc rc alloc',
    persist_eprobes hdr None dtrace_probes st hdl epids alloc
      = Ok (rc, alloc') ->
    rc = 0.
Proof.
  induction epids as [|epid epids IH]; intros alloc rc alloc' H; simpl in H.
  - now inversion H.
  - destruct (0 <? dts_necbs st); simpl in H; [|discriminate].
    destruct (dts_ecbs st) as [ecbs|]; simpl in H; [|discriminate].
    destruct (ecbs !! Z.to_nat (epid - 1)) as [ecb|]; simpl in H;
      [|discriminate].
    destruct ecb as [e|]; simpl in H; [|now apply IH in H].
    destruct (dte_epid e =? epid); simpl in H; [|discriminate].
    destruct (dte_probe e) as [pr|]; [|now apply IH in H].
    destruct (dtrace_probes !! Z.to_nat (dtpr_id pr - 1)) as [[probe|]|];
      [| now apply IH in H | discriminate].
    destruct (alloc_next alloc) as [[|] alloc1]; [|discriminate].
    now apply IH in H.
Qed.

(** The export as it is compiled in this revision has no failing return:
    when it returns, it returns [0]. *)
Lemma ddtrace_persist_metadata_compiled :
  forall st hdl alloc rc alloc',
    ddtrace_persist_metadata hdr None dtrace_probes dtrace_nprobes
      st hdl alloc = Ok (rc, alloc') ->
    rc = 0.
Proof.
  intros st hdl alloc rc alloc' H. unfold ddtrace_persist_metadata in H.
  destruct (negb (hdl =? NULL)); simpl in H; [|discriminate].
  destruct (persist_formats None st hdl (seqZ 1 (dts_nformats st)))
    as [rc0|] eqn:Hf; simpl in H; [|discriminate].
  apply persist_formats_compiled in Hf. subst rc0. simpl in H.
  destruct ((0 <? dts_necbs st)
            && match dts_ecbs st with Some _ => true | None => false end);
    simpl in H; [|discriminate].
  now apply persist_eprobes_compiled in H.
Qed.
End MetadataFacts.



(** ** More on the buffer switch *)

Section HarvestMore.
Variable hdr : headers.
Variable dtrace_xcall : Z -> dtrace_buffer -> dtrace_buffer.

Lemma buffer_switch_from_queue :
  forall bufs cpu errors desc kern bufs' errors' kern',
    buffer_switch_from hdr dtrace_xcall cpu bufs errors desc kern
      = Ok (bufs', errors', kern') ->
    ddtrace_hashtbl kern' = ddtrace_hashtbl kern
    /\ ddtrace_hashmask kern' = ddtrace_hashmask kern
    /\ kthreads kern' = kthreads kern
    /\ length bufs' = length bufs
    /\ forall q, vtdtr_traceq kern = Some q ->
         exists added,
           vtdtr_traceq kern' = Some (q ++ added)
           /\ Forall sound_entry added
           /\ (length added <= length bufs)%nat.
Proof.
  induction bufs as [|buf rest IH];
    intros cpu errors desc kern bufs' errors' kern' H; simpl in H.
  - inversion H; subst. repeat (split; [reflexivity|]).
    intros q Hq. exists []. rewrite app_nil_r. repeat split; auto.
  - destruct (Z.land (dtb_flags buf)
                (Z.lor (DTRACEBUF_RING hdr) (DTRACEBUF_FILL hdr)) =? 0);
      simpl in H; [|discriminate].
    destruct (dtb_tomax buf =? NULL).
    { inversion H; subst. repeat (split; [reflexivity|]).
      intros q Hq. exists []. rewrite app_nil_r.
      repeat split; auto. simpl. lia. }
    destruct (Z.land (dtb_flags buf) (DTRACEBUF_NOSWITCH hdr) =? 0);
      simpl in H; [|discriminate].
    destruct (dtb_tomax (dtrace_xcall cpu buf) =? dtb_tomax buf).
    + destruct (negb (dtb_xamot (dtrace_xcall cpu buf) =? dtb_tomax buf));
        simpl in H; [|discriminate].
      destruct (buffer_switch_from hdr dtrace_xcall (cpu + 1) rest errors
                  desc kern) as [[[r e] k]|] eqn:Hrec;
        simpl in H; [|discriminate].
      inversion H; subst.
      destruct (IH _ _ _ _ _ _ _ Hrec) as (Ht & Hm & Hk & Hl & Hq).
      repeat (split; [assumption|]). split; [simpl; now rewrite Hl|].
      intros q Hq0. destruct (Hq q Hq0) as (added & Ha & Hs & Hn).
      exists added. repeat split; auto. simpl. lia.
    + destruct (dtb_tomax buf =? dtb_xamot (dtrace_xcall cpu buf));
        simpl in H; [|discriminate].
      match type of H with
      | obind ?c _ = _ => destruct c as [kern1|] eqn:Hp
      end; simpl in H; [|discriminate].
      match type of H with
      | obind ?c _ = _ => destruct c as [[[r e] k]|] eqn:Hrec
      end; simpl in H; [|discriminate].
      inversion H; subst.
      destruct (IH _ _ _ _ _ _ _ Hrec) as (Ht & Hm & Hk & Hl & Hq).
      destruct (negb (dtb_xamot_offset (dtrace_xcall cpu buf) =? 0)).
      * apply ddtrace_persist_trace_ok in Hp.
        destruct Hp as (Ht1 & Hm1 & Hk1 & q1 & e1 & Hq1 & Hq1' & Hs1).
        simpl in Ht1, Hm1, Hk1, Hq1.
        split; [congruence|]. split; [congruence|]. split; [congruence|].
        split; [simpl; now rewrite Hl|].
        intros q Hq0. rewrite Hq0 in Hq1. inversion Hq1; subst q1.
        destruct (Hq _ Hq1') as (added & Ha & Hs & Hn).
        exists (e1 :: added). rewrite Ha, <- app_assoc. simpl.
        repeat split; auto. lia.
      * inversion Hp; subst kern1.
        repeat (split; [assumption|]). split; [simpl; now rewrite Hl|].
        intros q Hq0. destruct (Hq q Hq0) as (added & Ha & Hs & Hn).
        exists added. repeat split; auto. simpl. lia.
Qed.

Lemma buffer_switch_from_stops :
  forall before buf after cpu errors desc kern bufs' errors' kern',
    dtb_tomax buf = NULL ->
    buffer_switch_from hdr dtrace_xcall cpu (before ++ buf :: after)
      errors desc kern = Ok (bufs', errors', kern') ->
    drop (length before) bufs' = buf :: after.
Proof.
  induction before as [|b before IH];
    intros buf after cpu errors desc kern bufs' errors' kern' Hnull H;
    simpl in H.
  - destruct (Z.land (dtb_flags buf)
                (Z.lor (DTRACEBUF_RING hdr) (DTRACEBUF_FILL hdr)) =? 0);
      simpl in H; [|discriminate].
    rewrite Hnull in H. simpl in H. inversion H; subst. reflexivity.
  - destruct (Z.land (dtb_flags b)
                (Z.lor (DTRACEBUF_RING hdr) (DTRACEBUF_FILL hdr)) =? 0);
      simpl in H; [|discriminate].
    destruct (dtb_tomax b =? NULL).
    { inversion H; subst. simpl. now rewrite drop_app_length. }
    destruct (Z.land (dtb_flags b) (DTRACEBUF_NOSWITCH hdr) =? 0);
      simpl in H; [|discriminate].
    destruct (dtb_tomax (dtrace_xcall cpu b) =? dtb_tomax b).
    + destruct (negb (dtb_xamot (dtrace_xcall cpu b) =? dtb_tomax b));
        simpl in H; [|discriminate].
      match type of H with
      | obind ?c _ = _ => destruct c as [[[r e] k]|] eqn:Hrec
      end; simpl in H; [|discriminate].
      inversion H; subst. simpl. eapply IH; eassumption.
    + destruct (dtb_tomax b =? dtb_xamot (dtrace_xcall cpu b));
        simpl in H; [|discriminate].
      match type of H with
      | obind ?c _ = _ => destruct c as [kern1|] eqn:Hp
      end; simpl in H; [|discriminate].
      match type of H with
      | obind ?c _ = _ => destruct c as [[[r e] k]|] eqn:Hrec
      end; simpl in H; [|discriminate].
      inversion H; subst. simpl. eapply IH; eassumption.
Qed.

Lemma buffer_switch_from_stuck :
  xcall_stuck dtrace_xcall ->
  forall bufs cpu errors desc kern bufs' errors' kern',
    buffer_switch_from hdr dtrace_xcall cpu bufs errors desc kern
      = Ok (bufs', errors', kern') ->
    errors' = errors /\ kern' = kern.
Proof.
  intros Hstuck.
  induction bufs as [|buf rest IH];
    intros cpu errors desc kern bufs' errors' kern' H; simpl in H.
  - inversion H; subst. split; reflexivity.
  - destruct (Z.land (dtb_flags buf)
                (Z.lor (DTRACEBUF_RING hdr) (DTRACEBUF_FILL hdr)) =? 0);
      simpl in H; [|discriminate].
    destruct (dtb_tomax buf =? NULL).
    { inversion H; subst. split; reflexivity. }
    destruct (Z.land (dtb_flags buf) (DTRACEBUF_NOSWITCH hdr) =? 0);
      simpl in H; [|discriminate].
    rewrite Hstuck, Z.eqb_refl in H.
    destruct (negb (dtb_xamot (dtrace_xcall cpu buf) =? dtb_tomax buf));
      simpl in H; [|discriminate].
    match type of H with
    | obind ?c _ = _ => destruct c as [[[r e] k]|] eqn:Hrec
    end; simpl in H; [|discriminate].
    inversion H; subst. eapply IH; eassumption.
Qed.
End HarvestMore.

(** X5. A cycle only adds to the trace queue: what was queued stays in
    front, at most one entry per CPU is put behind it, and every new entry
    describes a region that is there and holds bytes. The client table and
    the threads are left alone. *)
Theorem ddtrace_buffer_switch_queue_grows :
  forall hdr dtrace_xcall desc0 st handle kern st' kern' q,
    vtdtr_traceq kern = Some q ->
    ddtrace_buffer_switch hdr dtrace_xcall desc0 st handle kern
      = Ok (st', kern') ->
    (exists added,
       vtdtr_traceq kern' = Some (q ++ added)
       /\ Forall sound_entry added
       /\ (length added <= length (dts_buffer st))%nat)
    /\ ddtrace_hashtbl kern' = ddtrace_hashtbl kern
    /\ kthreads kern' = kthreads kern.
Proof.
  intros hdr xcall desc0 st handle kern st' kern' q Hq H.
  destruct (ddtrace_buffer_switch_inv _ _ _ _ _ _ _ _ H)
    as (bufs & errors & Hloop & _).
  destruct (buffer_switch_from_queue _ _ _ _ _ _ _ _ _ _ Hloop)
    as (Ht & _ & Hk & _ & Hadd).
  split; [now apply Hadd|]. split; assumption.
Qed.

(** X5 at work: the cycle over one written unit queues one entry. *)
Lemma ddtrace_buffer_switch_queue_grows_witness :
  exists added,
    vtdtr_traceq (snd (value_or (example_state [], example_kernel)
                         example_cycle)) = Some ([] ++ added)
    /\ Forall sound_entry added.
Proof.
  destruct (ddtrace_buffer_switch_queue_grows example_headers example_xcall
              example_desc0 (example_state [unit_written]) 7 example_kernel
              (fst (value_or (example_state [], example_kernel) example_cycle))
              (snd (value_or (example_state [], example_kernel) example_cycle))
              [] eq_refl eq_refl)
    as ((added & Hq & Hs & _) & _).
  exists added. split; assumption.
Defined.

(** X6. A cycle stops at the first CPU whose active pointer is [NULL]:
    that unit and every unit behind it are left exactly as they were. *)
Theorem ddtrace_buffer_switch_stops_at_null :
  forall hdr dtrace_xcall desc0 st handle kern st' kern' before buf after,
    dts_buffer st = before ++ buf :: after ->
    dtb_tomax buf = NULL ->
    ddtrace_buffer_switch hdr dtrace_xcall desc0 st handle kern
      = Ok (st', kern') ->
    drop (length before) (dts_buffer st') = buf :: after.
Proof.
  intros hdr xcall desc0 st handle kern st' kern' before buf after
    Hbufs Hnull H.
  destruct (ddtrace_buffer_switch_inv _ _ _ _ _ _ _ _ H)
    as (bufs & errors & Hloop & ->).
  rewrite Hbufs in Hloop. simpl.
  eapply buffer_switch_from_stops; eassumption.
Qed.

(** X6 at work: a written unit, an unallocated one, another written one. *)
Lemma ddtrace_buffer_switch_stops_at_null_witness :
  exists st' kern',
    ddtrace_buffer_switch example_headers example_xcall example_desc0
      (example_state [unit_written; unit_unallocated; unit_written])
      7 example_kernel = Ok (st', kern')
    /\ drop 1 (dts_buffer st') = [unit_unallocated; unit_written].
Proof.
  eexists _, _. split; [reflexivity|].
  apply (ddtrace_buffer_switch_stops_at_null example_headers example_xcall
           example_desc0
           (example_state [unit_written; unit_unallocated; unit_written])
           7 example_kernel _ _ [unit_written] unit_unallocated
           [unit_written] eq_refl eq_refl eq_refl).
Defined.

(** X7. When the cross call leaves every active pointer where it was, the
    cycle counts no errors and leaves the kernel as it found it: nothing is
    queued and nothing is logged. *)
Theorem ddtrace_buffer_switch_stuck_is_silent :
  forall hdr dtrace_xcall desc0 st handle kern st' kern',
    xcall_stuck dtrace_xcall ->
    ddtrace_buffer_switch hdr dtrace_xcall desc0 st handle kern
      = Ok (st', kern') ->
    dts_errors st' = dts_errors st /\ kern' = kern.
Proof.
  intros hdr xcall desc0 st handle kern st' kern' Hstuck H.
  destruct (ddtrace_buffer_switch_inv _ _ _ _ _ _ _ _ H)
    as (bufs & errors & Hloop & ->).
  destruct (buffer_switch_from_stuck _ _ Hstuck _ _ _ _ _ _ _ _ Hloop)
    as [-> ->].
  split; reflexivity.
Qed.

(** X7 at work: a written unit whose switch does not take place. *)
Lemma ddtrace_buffer_switch_stuck_is_silent_witness :
  exists st',
    ddtrace_buffer_switch example_headers example_stuck_xcall example_desc0
      (example_state [unit_written]) 7 example_kernel
    = Ok (st', example_kernel)
    /\ dts_errors st' = 0.
Proof.
  eexists. split; [reflexivity|].
  apply (ddtrace_buffer_switch_stuck_is_silent example_headers
           example_stuck_xcall example_desc0 (example_state [unit_written])
           7 example_kernel _ example_kernel (fun _ _ => eq_refl) eq_refl).
Defined.

(** ** More on the worker *)

Section WorkerMore.
Variable hdr : headers.
Variable dtrace_xcall : Z -> dtrace_buffer -> dtrace_buffer.
Variable desc0 : dtrace_bufdesc.

Lemma ddtrace_buffer_switch_frame :
  forall st handle kern st' kern',
    ddtrace_buffer_switch hdr dtrace_xcall desc0 st handle kern
      = Ok (st', kern') ->
    dts_alive st' = dts_alive st
    /\ ddtrace_hashtbl kern' = ddtrace_hashtbl kern
    /\ ddtrace_hashmask kern' = ddtrace_hashmask kern
    /\ kthreads kern' = kthreads kern.
Proof.
  intros st handle kern st' kern' H.
  destruct (ddtrace_buffer_switch_inv _ _ _ _ _ _ _ _ H)
    as (bufs & errors & Hloop & ->).
  destruct (buffer_switch_from_queue _ _ _ _ _ _ _ _ _ _ Hloop)
    as (Ht & Hm & Hk & _).
  repeat split; assumption.
Qed.

Lemma ddtrace_thread_loop_registry :
  forall wakes k st kern evs st' kern' broke,
    ddtrace_thread_loop hdr dtrace_xcall desc0 wakes k st kern
      = Ok (evs, st', kern', broke) ->
    ddtrace_hashtbl kern' = ddtrace_hashtbl kern
    /\ ddtrace_hashmask kern' = ddtrace_hashmask kern
    /\ kthreads kern' = kthreads kern.
Proof.
  induction wakes as [|w wakes IH];
    intros k st kern evs st' kern' broke H; simpl in H.
  - inversion H; subst. repeat split.
  - destruct (negb (w_exit w =? 0)).
    { inversion H; subst. repeat split. }
    match type of H with
    | obind ?c _ = _ => destruct c as [[st1 kern1]|] eqn:Hcycle
    end; simpl in H; [|discriminate].
    match type of H with
    | obind ?c _ = _ => destruct c as [[[[evs1 st2] kern2] b]|] eqn:Hloop
    end; simpl in H; [|discriminate].
    inversion H; subst.
    destruct (ddtrace_buffer_switch_frame _ _ _ _ _ Hcycle)
      as (_ & Ht & Hm & Hk).
    destruct (IH _ _ _ _ _ _ _ Hloop) as (Ht' & Hm' & Hk').
    repeat split; congruence.
Qed.

Lemma ddtrace_thread_loop_waiting :
  forall wakes k st kern evs st' kern' broke,
    Forall (fun w => w_exit w = 0) wakes ->
    ddtrace_thread_loop hdr dtrace_xcall desc0 wakes k st kern
      = Ok (evs, st', kern', broke) ->
    broke = false /\ evs = harvest_cycles wakes.
Proof.
  induction wakes as [|w wakes IH];
    intros k st kern evs st' kern' broke Hzero H; simpl in H.
  - inversion H; subst. split; reflexivity.
  - inversion Hzero as [|? ? Hw Hrest]; subst.
    rewrite Hw in H. simpl in H.
    match type of H with
    | obind ?c _ = _ => destruct c as [[st1 kern1]|] eqn:Hcycle
    end; simpl in H; [|discriminate].
    match type of H with
    | obind ?c _ = _ => destruct c as [[[[evs1 st2] kern2] b]|] eqn:Hloop
    end; simpl in H; [|discriminate].
    inversion H; subst.
    destruct (IH _ _ _ _ _ _ _ Hrest Hloop) as [-> ->].
    split; reflexivity.
Qed.

Lemma ddtrace_thread_loop_alive :
  forall timers w rest k st kern evs st' kern' broke,
    Forall (fun w => w_exit w = 0) timers ->
    w_exit w <> 0 ->
    ddtrace_thread_loop hdr dtrace_xcall desc0 (timers ++ w :: rest)
      k st kern = Ok (evs, st', kern', broke) ->
    dts_alive st' = last_alive (dts_alive st) timers.
Proof.
  induction timers as [|w0 timers IH];
    intros w rest k st kern evs st' kern' broke Hzero Hexit H; simpl in H.
  - apply Z.eqb_neq in Hexit. rewrite Hexit in H. simpl in H.
    inversion H; subst. reflexivity.
  - inversion Hzero as [|? ? Hw0 Hrest]; subst.
    rewrite Hw0 in H. simpl in H.
    match type of H with
    | obind ?c _ = _ => destruct c as [[st1 kern1]|] eqn:Hcycle
    end; simpl in H; [|discriminate].
    match type of H with
    | obind ?c _ = _ => destruct c as [[[[evs1 st2] kern2] b]|] eqn:Hloop
    end; simpl in H; [|discriminate].
    inversion H; subst.
    destruct (ddtrace_buffer_switch_frame _ _ _ _ _ Hcycle) as (Ha & _).
    rewrite (IH _ _ _ _ _ _ _ _ _ Hrest Hexit Hloop), Ha. reflexivity.
Qed.
End WorkerMore.

(** X8. A worker never touches the client table, its mask or the list of
    threads, however long it runs and however it ends. *)
Theorem ddtrace_thread_leaves_registry :
  forall hdr dtrace_xcall persist_metadata desc0 k st kern wakes run,
    ddtrace_thread hdr dtrace_xcall persist_metadata desc0 k st kern wakes
      = Ok run ->
    ddtrace_hashtbl (th_kernel run) = ddtrace_hashtbl kern
    /\ ddtrace_hashmask (th_kernel run) = ddtrace_hashmask kern
    /\ kthreads (th_kernel run) = kthreads kern.
Proof.
  intros hdr xcall meta desc0 k st kern wakes run H.
  unfold ddtrace_thread in H.
  destruct (ddtrace_assert_integrity k); simpl in H; [|discriminate].
  destruct (meta st (ddtrace_dlog_handle k) (nowait kern))
    as [[rc alloc]|]; simpl in H; [|discriminate].
  destruct (negb (rc =? 0)).
  { inversion H; subst. repeat split. }
  match type of H with
  | obind ?c _ = _ => destruct c as [[[[evs st1] kern1] broke]|] eqn:Hloop
  end; simpl in H; [|discriminate].
  destruct (ddtrace_thread_loop_registry _ _ _ _ _ _ _ _ _ _ _ Hloop)
    as (Ht & Hm & Hk).
  simpl in Ht, Hm, Hk.
  destruct broke.
  - match type of H with
    | obind ?c _ = _ => destruct c as [[st2 kern2]|] eqn:Hfinal
    end; simpl in H; [|discriminate].
    destruct (ddtrace_buffer_switch_frame _ _ _ _ _ _ _ _ Hfinal)
      as (_ & Ht' & Hm' & Hk').
    inversion H; subst. simpl. repeat split; congruence.
  - inversion H; subst. simpl. repeat split; assumption.
Qed.

(** X8 at work: the run of [example_run]. *)
Lemma ddtrace_thread_leaves_registry_witness :
  ddtrace_hashtbl
    (th_kernel (value_or (ThreadRun [] (example_state []) example_kernel
                            ThWaiting) example_run))
  = ddtrace_hashtbl example_kernel.
Proof.
  apply (ddtrace_thread_leaves_registry example_headers example_xcall
           metadata_compiled example_desc0 (Client 9 7 4128 0)
           (example_state [unit_empty]) example_kernel
           ([wake_timer 10] ++ wake_exit 20 :: []) _ eq_refl).
Defined.

(** X9. As long as no wake shows the exit flag the worker neither exits
    nor runs a final switch: after the export it has run one harvest cycle
    per wake, each on the state and the kernel the one before left, and
    is asleep again. *)
Theorem ddtrace_thread_keeps_waiting :
  forall hdr dtrace_xcall persist_metadata desc0 k st kern wakes alloc run,
    persist_metadata st (ddtrace_dlog_handle k) (nowait kern)
      = Ok (0, alloc) ->
    Forall (fun w => w_exit w = 0) wakes ->
    ddtrace_thread hdr dtrace_xcall persist_metadata desc0 k st kern wakes
      = Ok run ->
    th_status run = ThWaiting
    /\ th_events run = EvMetadata 0 :: harvest_cycles wakes
    /\ ~ In EvKthreadExit (th_events run)
    /\ worker_cycles hdr dtrace_xcall desc0 (ddtrace_dlog_handle k) wakes
         st (set_nowait kern alloc)
       = Ok (th_state run, th_kernel run).
Proof.
  intros hdr xcall meta desc0 k st kern wakes alloc run Hmeta Hzero H.
  unfold ddtrace_thread in H.
  destruct (ddtrace_assert_integrity k); simpl in H; [|discriminate].
  rewrite Hmeta in H. simpl in H.
  match type of H with
  | obind ?c _ = _ => destruct c as [[[[evs st1] kern1] broke]|] eqn:Hloop
  end; simpl in H; [|discriminate].
  destruct (ddtrace_thread_loop_waiting _ _ _ _ _ _ _ _ _ _ _ Hzero Hloop)
    as [-> ->].
  rewrite <- (app_nil_r wakes) in Hloop.
  destruct (ddtrace_thread_loop_cycles _ _ _ _ _ _ _ _ _ _ _ _ Hzero Hloop)
    as (st2 & kern2 & evs' & Hcycles & Htail & _).
  simpl in Htail. inversion Htail; subst. clear Htail.
  inversion H; subst. simpl.
  split; [reflexivity|]. split; [reflexivity|].
  split; [|exact Hcycles].
  intros [Hin|Hin]; [discriminate|].
  clear -Hin. induction wakes as [|w wakes IH]; simpl in Hin; [exact Hin|].
  destruct Hin as [Hin|[Hin|[Hin|Hin]]]; try discriminate. now apply IH.
Qed.

(** X9 at work: a timer wake on an empty unit, then one after 16 bytes
    were written; the second cycle queues their entry and the worker is
    asleep again. *)
Lemma ddtrace_thread_keeps_waiting_witness :
  exists run,
    ddtrace_thread example_headers example_xcall metadata_compiled
      example_desc0 (Client 9 7 4128 0) (example_state [unit_empty])
      example_kernel [wake_timer 10; wake_timer_written 20] = Ok run
    /\ th_status run = ThWaiting
    /\ th_events run
       = [EvMetadata 0; EvWake; EvAlive 10; EvBufferSwitch;
          EvWake; EvAlive 20; EvBufferSwitch]
    /\ vtdtr_traceq (th_kernel run)
       = Some [{| vt_size := 16; vt_cpu := 0; vt_errors := 2; vt_drops := 5;
                  vt_data := 8192; vt_oldest := 0 |}].
Proof.
  eexists. split; [reflexivity|].
  destruct (ddtrace_thread_keeps_waiting example_headers example_xcall
              metadata_compiled example_desc0 (Client 9 7 4128 0)
              (example_state [unit_empty]) example_kernel
              [wake_timer 10; wake_timer_written 20] [] _ eq_refl
              ltac:(repeat constructor) eq_refl) as (Hs & He & _).
  split; [exact Hs|]. split; [exact He|]. reflexivity.
Defined.

(** X10. When the worker exits, the liveness stamp [dts_alive] of its state
    is the time of its last harvest cycle (the value it started with when
    there was none): every cycle writes the time of its wake, and the
    final switch writes none. *)
Theorem ddtrace_thread_alive_stamp :
  forall hdr dtrace_xcall persist_metadata desc0 k st kern
         timers w rest alloc run,
    persist_metadata st (ddtrace_dlog_handle k) (nowait kern)
      = Ok (0, alloc) ->
    Forall (fun w => w_exit w = 0) timers ->
    w_exit w <> 0 ->
    ddtrace_thread hdr dtrace_xcall persist_metadata desc0 k st kern
      (timers ++ w :: rest) = Ok run ->
    dts_alive (th_state run) = last_alive (dts_alive st) timers.
Proof.
  intros hdr xcall meta desc0 k st kern timers w rest alloc run
    Hmeta Hzero Hexit H.
  unfold ddtrace_thread in H.
  destruct (ddtrace_assert_integrity k); simpl in H; [|discriminate].
  rewrite Hmeta in H. simpl in H.
  match type of H with
  | obind ?c _ = _ => destruct c as [[[[evs st1] kern1] broke]|] eqn:Hloop
  end; simpl in H; [|discriminate].
  pose proof (ddtrace_thread_loop_alive _ _ _ _ _ _ _ _ _ _ _ _ _
                Hzero Hexit Hloop) as Halive.
  destruct (ddtrace_thread_loop_until_exit _ _ _ _ _ _ _ _ _ _ _ _ _
              Hzero Hexit Hloop) as [-> _].
  match type of H with
  | obind ?c _ = _ => destruct c as [[st2 kern2]|] eqn:Hfinal
  end; simpl in H; [|discriminate].
  destruct (ddtrace_buffer_switch_frame _ _ _ _ _ _ _ _ Hfinal) as (Ha & _).
  inversion H; subst. simpl. congruence.
Qed.

(** X10 at work: the run of [example_run] ends with the stamp of its one
    cycle. *)
Lemma ddtrace_thread_alive_stamp_witness :
  dts_alive (th_state (value_or (ThreadRun [] (example_state [])
                                   example_kernel ThWaiting) example_run))
  = 10.
Proof.
  apply (ddtrace_thread_alive_stamp example_headers example_xcall
           metadata_compiled example_desc0 (Client 9 7 4128 0)
           (example_state [unit_empty]) example_kernel
           [wake_timer 10] (wake_exit 20) [] [] _ eq_refl
           ltac:(repeat constructor) ltac:(discriminate) eq_refl).
Defined.

(** ** More on the client registry *)

Lemma insert_alter_cancel :
  forall (tbl : list (list client)) (b : nat) (f : list client -> list client),
    (b < length tbl)%nat ->
    <[b := tbl !!! b]> (alter f b tbl) = tbl.
Proof.
  intros tbl b f Hb. apply list_eq. intros i.
  destruct (decide (i = b)) as [->|Hne].
  - rewrite list_lookup_insert_eq by (now rewrite length_alter).
    symmetry. now apply list_lookup_lookup_total_lt.
  - rewrite list_lookup_insert_ne by congruence.
    apply list_lookup_alter_ne. congruence.
Qed.

Lemma ddtrace_bucket_in_range :
  forall hash kern state,
    registry_shape kern ->
    (ddtrace_bucket hash kern state < length (ddtrace_hashtbl kern))%nat.
Proof.
  intros hash kern state [Hlen Hmask]. unfold ddtrace_bucket.
  rewrite Hlen, Hmask. change 15 with (Z.ones 4).
  rewrite Z.land_ones by lia.
  pose proof (Z.mod_pos_bound (hash state) (2 ^ 4) ltac:(lia)).
  unfold DDTRACE_NHASH_BUCKETS. lia.
Qed.

Lemma close_chain_miss :
  forall state chain,
    Forall (passed_over state) chain ->
    close_chain state chain = Ok (None, chain).
Proof.
  induction chain as [|k chain IH]; intros Hall; simpl; [reflexivity|].
  inversion Hall as [|? ? [Hint Hne] Hrest]; subst.
  rewrite Hint. simpl.
  assert (Hneq : (state =? ddtrace_state k) = false)
    by (apply Z.eqb_neq; congruence).
  rewrite Hneq, (IH Hrest). reflexivity.
Qed.

Lemma close_chain_first :
  forall state before k after,
    Forall (passed_over state) before ->
    ddtrace_assert_integrity k = Ok tt ->
    ddtrace_state k = state ->
    close_chain state (before ++ k :: after) = Ok (Some k, before ++ after).
Proof.
  induction before as [|b before IH]; intros k after Hall Hint Hk; simpl.
  - rewrite Hint. simpl. rewrite Hk, Z.eqb_refl. reflexivity.
  - inversion Hall as [|? ? [Hbint Hne] Hrest]; subst.
    rewrite Hbint. simpl.
    assert (Hneq : (ddtrace_state k =? ddtrace_state b) = false)
      by (apply Z.eqb_neq; congruence).
    rewrite Hneq, (IH _ _ Hrest Hint eq_refl). reflexivity.
Qed.


Lemma stop_chain_panics :
  forall tsleep chain kern,
    Exists (fun k => tsleep k <> 0) chain ->
    stop_chain tsleep chain kern = Panic "Failed to stop client thread".
Proof.
  induction chain as [|k chain IH]; intros kern Hex; simpl;
    [inversion Hex|].
  destruct (tsleep k =? 0) eqn:Hk; simpl; [|reflexivity].
  apply IH. inversion Hex as [? ? Hbad|? ? Hlater]; subst; [|assumption].
  apply Z.eqb_eq in Hk. contradiction.
Qed.


Lemma stop_chain_panic_text :
  forall tsleep chain kern msg,
    stop_chain tsleep chain kern = Panic msg ->
    msg = "Failed to stop client thread"%string.
Proof.
  induction chain as [|k chain IH]; intros kern msg Hs; simpl in Hs;
    [discriminate|].
  destruct (tsleep k =? 0); simpl in Hs; [now apply IH in Hs|].
  congruence.
Qed.

Lemma stop_buckets_panics :
  forall tsleep tbl kern,
    Exists (fun k => tsleep k <> 0) (concat tbl) ->
    stop_buckets tsleep tbl kern = Panic "Failed to stop client thread".
Proof.
  induction tbl as [|chain tbl IH]; intros kern Hex; simpl;
    [inversion Hex|].
  simpl in Hex. apply Exists_app in Hex.
  destruct (stop_chain tsleep chain kern) as [kern1|msg] eqn:Hs; simpl.
  - destruct Hex as [Hc|Ht]; [|now apply IH].
    rewrite (stop_chain_panics _ _ _ Hc) in Hs. discriminate.
  - now rewrite (stop_chain_panic_text _ _ _ _ Hs).
Qed.




(** X11. [ddtrace_open] turns away a state whose buffer policy is not
    "switch": it returns with the client table, the threads and the trace
    queue as they were, after one high-priority log line. *)
Theorem ddtrace_open_needs_switch_policy :
  forall hdr e2s murmur env dist state st kern,
    state <> NULL -> dist <> NULL ->
    dts_options st (DTRACEOPT_BUFPOLICY hdr)
      <> DTRACEOPT_BUFPOLICY_SWITCH hdr ->
    exists kern',
      ddtrace_open hdr e2s murmur env dist state st kern = Ok kern'
      /\ turned_away kern kern'.
Proof.
  intros hdr e2s murmur env dist state st kern Hs Hd Hpol.
  unfold ddtrace_open. apply Z.eqb_neq in Hs, Hd, Hpol.
  rewrite Hs, Hd, Hpol. simpl.
  destruct (find _ _); eexists; (split; [reflexivity|]);
    unfold turned_away; simpl; repeat split; eexists;
    rewrite <- app_assoc; reflexivity.
Qed.

Lemma ddtrace_open_needs_switch_policy_witness :
  exists kern',
    ddtrace_open example_headers (one_probe_size 8) example_hash example_env
      1 4128 example_state_ring example_kernel = Ok kern'
    /\ turned_away example_kernel kern'.
Proof.
  apply ddtrace_open_needs_switch_policy; discriminate.
Defined.

(** X12. [ddtrace_open] turns away a state that leads to no Dlog handle
    (the option unset, the descriptor not open, no private data on the
    file, or a null handle in it): nothing is allocated, no thread is
    made and the client table stays as it was. *)
Theorem ddtrace_open_needs_dlog_handle :
  forall hdr e2s murmur env dist state st kern,
    state <> NULL -> dist <> NULL ->
    no_dlog_handle hdr env st ->
    exists kern',
      ddtrace_open hdr e2s murmur env dist state st kern = Ok kern'
      /\ turned_away kern kern'
      /\ nowait kern' = nowait kern.
Proof.
  intros hdr e2s murmur env dist state st kern Hs Hd Hno.
  unfold ddtrace_open. apply Z.eqb_neq in Hs, Hd.
  rewrite Hs, Hd. simpl.
  assert (Hlog : forall text,
    exists kern',
      Ok (DLOGTR PRIO_HIGH text (DLOGTR PRIO_LOW "ddtrace_open" kern))
        = Ok kern'
      /\ turned_away kern kern' /\ nowait kern' = nowait kern).
  { intros text. eexists. split; [reflexivity|].
    unfold turned_away. simpl. repeat split. exists text.
    now rewrite <- app_assoc. }
  destruct (find _ _); [apply Hlog|].
  destruct (negb _); [apply Hlog|].
  destruct (dts_options st (DTRACEOPT_DDTRACEARG hdr) =? DTRACEOPT_UNSET hdr)
    eqn:Harg; [apply Hlog|].
  apply Z.eqb_neq in Harg.
  destruct Hno as [Hunset|[Hfd|(fp & Hfd & Hpriv)]].
  - contradiction.
  - rewrite Hfd. apply Hlog.
  - rewrite Hfd. destruct Hpriv as [Hnone|(p & Hsome & Hnull)].
    + rewrite Hnone. apply Hlog.
    + rewrite Hsome, Hnull. simpl. apply Hlog.
Qed.

Lemma ddtrace_open_needs_dlog_handle_witness :
  exists kern',
    ddtrace_open example_headers (one_probe_size 8) example_hash
      example_env_closed 1 4128 (example_state []) example_kernel = Ok kern'
    /\ turned_away example_kernel kern'
    /\ nowait kern' = nowait example_kernel.
Proof.
  apply ddtrace_open_needs_dlog_handle; try discriminate.
  right. left. reflexivity.
Defined.

(** X13. Open, then close: after a [ddtrace_open] that passes every check,
    [ddtrace_close] for the same state finds the new client, hands it back
    signalled to exit, and leaves the client table as it was before the
    open. *)
Theorem ddtrace_open_close_round_trip :
  forall hdr e2s murmur env dist state st kern handle pid,
    open_checks_pass hdr e2s env dist state st kern handle pid ->
    (ddtrace_bucket murmur kern state < length (ddtrace_hashtbl kern))%nat ->
    exists kern1 kern2,
      ddtrace_open hdr e2s murmur env dist state st kern = Ok kern1
      /\ ddtrace_close murmur state kern1
         = Ok (kern2, Some (Client pid handle state 1))
      /\ ddtrace_hashtbl kern2 = ddtrace_hashtbl kern
      /\ ddtrace_hashmask kern2 = ddtrace_hashmask kern.
Proof.
  intros hdr e2s murmur env dist state st kern handle pid Hpass Hb.
  destruct (ddtrace_open_registers hdr e2s murmur _ _ _ _ _ _ _ Hpass)
    as (kern1 & Hopen & Htbl & _ & Hmask & _).
  destruct Hpass as (Hs & _ & _ & _ & _ & _ & Hh & _ & _ & Hpid).
  assert (Hint : ddtrace_assert_integrity (Client pid handle state 0) = Ok tt).
  { unfold ddtrace_assert_integrity. simpl.
    apply Z.eqb_neq in Hs, Hh, Hpid. now rewrite Hs, Hh, Hpid. }
  assert (Hbk : ddtrace_bucket murmur kern1 state
                = ddtrace_bucket murmur kern state).
  { unfold ddtrace_bucket. now rewrite Hmask. }
  exists kern1. eexists. split; [exact Hopen|].
  unfold ddtrace_close. apply Z.eqb_neq in Hs. rewrite Hs. simpl.
  rewrite Hbk, Htbl. unfold list_insert_head.
  rewrite list_lookup_total_alter_eq by exact Hb.
  rewrite (close_chain_head state (Client pid handle state 0) _ eq_refl Hint).
  simpl. split; [reflexivity|]. simpl.
  split; [now apply insert_alter_cancel|exact Hmask].
Qed.

Lemma ddtrace_open_close_round_trip_witness :
  exists kern1 kern2,
    ddtrace_open example_headers (one_probe_size 8) example_hash example_env2
      1 4128 (example_state []) example_opened = Ok kern1
    /\ ddtrace_close example_hash 4128 kern1
       = Ok (kern2, Some (Client 11 7 4128 1))
    /\ ddtrace_hashtbl kern2 = ddtrace_hashtbl example_opened
    /\ ddtrace_hashmask kern2 = ddtrace_hashmask example_opened.
Proof.
  apply ddtrace_open_close_round_trip.
  - exact example_checks_pass.
  - vm_compute. lia.
Defined.

(** X14. [ddtrace_close] for a state none of whose bucket's clients
    belongs to it changes nothing: the kernel is as before and no client
    is handed back. *)
Theorem ddtrace_close_absent_state :
  forall murmur state kern,
    state <> NULL ->
    Forall (passed_over state)
      (ddtrace_hashtbl kern !!! ddtrace_bucket murmur kern state) ->
    ddtrace_close murmur state kern = Ok (kern, None).
Proof.
  intros murmur state kern Hs Hall. unfold ddtrace_close.
  apply Z.eqb_neq in Hs. rewrite Hs. simpl.
  now rewrite (close_chain_miss _ _ Hall).
Qed.

Lemma ddtrace_close_absent_state_witness :
  ddtrace_close example_hash 4896 example_crowded = Ok (example_crowded, None).
Proof.
  apply ddtrace_close_absent_state; [discriminate|].
  repeat constructor; discriminate.
Defined.

(** X15. [ddtrace_close] takes the first client of the state out of its
    chain and no other: the clients before and after it stay in their
    order, later clients of the same state stay too, every other bucket
    is untouched, and the client is handed back signalled to exit. *)
Theorem ddtrace_close_removes_first :
  forall murmur state kern before k after,
    state <> NULL ->
    ddtrace_hashtbl kern !!! ddtrace_bucket murmur kern state
      = before ++ k :: after ->
    Forall (passed_over state) before ->
    ddtrace_assert_integrity k = Ok tt ->
    ddtrace_state k = state ->
    exists kern',
      ddtrace_close murmur state kern
        = Ok (kern', Some (Client (ddtrace_pid k) (ddtrace_dlog_handle k)
                                  state 1))
      /\ ddtrace_hashtbl kern' !!! ddtrace_bucket murmur kern state
         = before ++ after
      /\ (forall i, i <> ddtrace_bucket murmur kern state ->
                    ddtrace_hashtbl kern' !!! i = ddtrace_hashtbl kern !!! i)
      /\ length (ddtrace_hashtbl kern') = length (ddtrace_hashtbl kern)
      /\ kthreads kern' = kthreads kern.
Proof.
  intros murmur state kern before k after Hs Hchain Hbefore Hint Hk.
  assert (Hb : (ddtrace_bucket murmur kern state
                < length (ddtrace_hashtbl kern))%nat).
  { destruct (le_lt_dec (length (ddtrace_hashtbl kern))
                (ddtrace_bucket murmur kern state)) as [Hge|Hlt];
      [|exact Hlt].
    rewrite list_lookup_total_alt, lookup_ge_None_2 in Hchain by exact Hge.
    simpl in Hchain. destruct before; discriminate. }
  unfold ddtrace_close. apply Z.eqb_neq in Hs. rewrite Hs. simpl.
  rewrite Hchain, (close_chain_first _ _ _ _ Hbefore Hint Hk). simpl.
  eexists. split; [now rewrite Hk|]. simpl.
  split; [now apply list_lookup_total_insert_eq|].
  split; [|split; [apply length_insert|reflexivity]].
  intros i Hi. apply list_lookup_total_insert_ne. congruence.
Qed.

Lemma ddtrace_close_removes_first_witness :
  exists kern',
    ddtrace_close example_hash 4128 example_crowded
      = Ok (kern', Some (Client 9 7 4128 1))
    /\ ddtrace_hashtbl kern' !!! ddtrace_bucket example_hash example_crowded 4128
       = [Client 3 7 4384 0] ++ [Client 5 7 4640 0; Client 11 7 4128 0]
    /\ (forall i, i <> ddtrace_bucket example_hash example_crowded 4128 ->
          ddtrace_hashtbl kern' !!! i = ddtrace_hashtbl example_crowded !!! i)
    /\ length (ddtrace_hashtbl kern') = length (ddtrace_hashtbl example_crowded)
    /\ kthreads kern' = kthreads example_crowded.
Proof.
  apply (ddtrace_close_removes_first example_hash 4128 example_crowded
           [Client 3 7 4384 0] (Client 9 7 4128 0)
           [Client 5 7 4640 0; Client 11 7 4128 0]).
  - discriminate.
  - reflexivity.
  - repeat constructor; discriminate.
  - reflexivity.
  - reflexivity.
Defined.



(** X17. [ddtrace_stop] does not return when the wait for one client's
    thread gave something other than [0] (a timeout, say): the assertion
    "Failed to stop client thread" fires, whichever client it was. *)
Theorem ddtrace_stop_asserts_on_failed_wait :
  forall tsleep kern,
    Exists (fun k => tsleep k <> 0) (stop_clients kern) ->
    ddtrace_stop tsleep kern = Panic "Failed to stop client thread".
Proof.
  intros tsleep kern Hex. unfold ddtrace_stop.
  now rewrite (stop_buckets_panics tsleep _ kern Hex).
Qed.

Lemma ddtrace_stop_asserts_on_failed_wait_witness :
  ddtrace_stop (fun k => if ddtrace_pid k =? 5 then 35 else 0) example_crowded
    = Panic "Failed to stop client thread".
Proof.
  apply ddtrace_stop_asserts_on_failed_wait.
  apply Exists_cons_tl, Exists_cons_tl, Exists_cons_hd. discriminate.
Defined.

(** X18. In a client table of the shape [MOD_LOAD] gives it (16 chains,
    mask 15) every state hashes to a bucket inside the table, and
    [ddtrace_open] and [ddtrace_close] keep the shape whenever they
    return. *)
Theorem registry_shape_kept :
  forall hdr e2s murmur kern,
    registry_shape kern ->
    (forall state,
       (ddtrace_bucket murmur kern state < length (ddtrace_hashtbl kern))%nat)
    /\ (forall env dist state st kern',
          ddtrace_open hdr e2s murmur env dist state st kern = Ok kern' ->
          registry_shape kern')
    /\ (forall state kern' found,
          ddtrace_close murmur state kern = Ok (kern', found) ->
          registry_shape kern').
Proof.
  intros hdr e2s murmur kern Hshape.
  split; [intros state; now apply ddtrace_bucket_in_range|].
  destruct Hshape as [Hlen Hmask].
  split.
  - intros env dist state st kern' Hopen.
    destruct (ddtrace_open_inv hdr e2s murmur _ _ _ _ _ _ Hopen)
      as (Hm & _ & [[Ht _]|(k & _ & _ & _ & _ & Ht & _)]);
      split; try congruence.
    rewrite Ht. unfold list_insert_head. now rewrite length_alter.
  - intros state kern' found Hclose. unfold ddtrace_close in Hclose.
    destruct (negb (state =? NULL)); simpl in Hclose; [|discriminate].
    destruct (close_chain state _) as [[[k|] rest]|msg]; simpl in Hclose;
      inversion Hclose; subst; split; simpl; try assumption.
    now rewrite length_insert.
Qed.

Lemma registry_shape_kept_witness :
  registry_shape example_kernel
  /\ (ddtrace_bucket example_hash example_kernel 4128
      < length (ddtrace_hashtbl example_kernel))%nat
  /\ registry_shape example_opened.
Proof.
  assert (Hshape : registry_shape example_kernel) by (split; reflexivity).
  destruct (registry_shape_kept example_headers (one_probe_size 8)
              example_hash example_kernel Hshape) as (Hb & Ho & _).
  split; [exact Hshape|]. split; [apply Hb|].
  apply (Ho example_env 1 4128 (example_state [])). reflexivity.
Defined.

(** ** More on the export of the metadata *)

Section MetadataMore.
Variable hdr : headers.
Variable dlog_produce : option (Z -> string -> dlog_payload -> Z).
Variable dtrace_probes : list (option dtrace_probe).
Variable dtrace_nprobes : Z.

Lemma count_recs_nonneg : forall acts, 0 <= count_recs hdr acts.
Proof.
  induction acts as [|act acts IH]; simpl; [lia|].
  destruct (action_skipped hdr act); lia.
Qed.

Lemma copy_recs_enough :
  forall acts n,
    count_recs hdr acts <= n ->
    copy_recs hdr acts n
    = map dta_rec (List.filter (fun a => negb (action_skipped hdr a)) acts).
Proof.
  induction acts as [|act acts IH]; intros n Hn; simpl in *; [reflexivity|].
  destruct (action_skipped hdr act); simpl; [now apply IH|].
  pose proof (count_recs_nonneg acts) as Hc.
  assert (Hz : (n =? 0) = false) by (apply Z.eqb_neq; lia).
  rewrite Hz. f_equal. apply IH. lia.
Qed.

Lemma count_recs_length :
  forall acts,
    Z.of_nat (length (List.filter (fun a => negb (action_skipped hdr a)) acts))
    = count_recs hdr acts.
Proof.
  induction acts as [|act acts IH]; simpl; [reflexivity|].
  destruct (action_skipped hdr act); simpl; lia.
Qed.



Lemma persist_formats_values :
  forall st hdl fmts rc,
    persist_formats dlog_produce st hdl fmts = Ok rc -> rc = 0 \/ rc = -1.
Proof.
  induction fmts as [|fmt fmts IH]; intros rc H; simpl in H.
  - inversion H. now left.
  - destruct (dts_formats st) as [formats|]; [|discriminate].
    destruct (formats !! Z.to_nat (fmt - 1)) as [[fmt_str|]|];
      try discriminate.
    destruct (produce_fails _ _ _ _); [inversion H; now right|].
    now apply IH.
Qed.

Lemma persist_eprobes_values :
  forall st hdl epids alloc rc alloc',
    persist_eprobes hdr dlog_produce dtrace_probes st hdl epids alloc
      = Ok (rc, alloc') ->
    (rc = 0 \/ rc = -1) /\ exists used, alloc = used ++ alloc'.
Proof.
  induction epids as [|epid epids IH]; intros alloc rc alloc' H; simpl in H.
  - inversion H; subst. split; [now left|now exists []].
  - destruct (0 <? dts_necbs st); simpl in H; [|discriminate].
    destruct (dts_ecbs st) as [ecbs|]; simpl in H; [|discriminate].
    destruct (ecbs !! Z.to_nat (epid - 1)) as [ecb|]; simpl in H;
      [|discriminate].
    destruct ecb as [e|]; simpl in H; [|now apply IH in H].
    destruct (dte_epid e =? epid); simpl in H; [|discriminate].
    destruct (dte_probe e) as [pr|]; [|now apply IH in H].
    destruct (dtrace_probes !! Z.to_nat (dtpr_id pr - 1)) as [[probe|]|];
      [| now apply IH in H | discriminate].
    destruct (produce_fails _ _ _ _).
    { inversion H; subst. split; [now right|now exists []]. }
    destruct alloc as [|got alloc1]; simpl in H.
    + destruct (produce_fails _ _ _ _).
      { inversion H; subst. split; [now right|now exists []]. }
      now apply IH in H.
    + destruct got; [|discriminate].
      destruct (produce_fails _ _ _ _).
      { inversion H; subst. split; [now right|]. now exists [true]. }
      apply IH in H. destruct H as [Hrc [used Hu]].
      split; [exact Hrc|]. exists (true :: used). simpl. now rewrite Hu.
Qed.
End MetadataMore.

(** X19. The enabled-probe description [ddtrace_persist_metadata] builds
    holds one record for each action that is neither aggregating nor in a
    tuple, in the order of the actions: the second pass copies exactly as
    many records as the first pass counted, so its [break] never cuts the
    copy short. *)
Theorem copy_recs_copies_counted :
  forall hdr acts,
    copy_recs hdr acts (count_recs hdr acts)
    = map dta_rec (List.filter (fun a => negb (action_skipped hdr a)) acts)
    /\ Z.of_nat (length (copy_recs hdr acts (count_recs hdr acts)))
       = count_recs hdr acts.
Proof.
  intros hdr acts.
  rewrite (copy_recs_enough hdr acts (count_recs hdr acts)) by lia.
  split; [reflexivity|].
  rewrite length_map. apply count_recs_length.
Qed.

(** X20. When [ddtrace_persist_metadata] returns, it returns [0] or [-1];
    it returns [0] if the log took every message; and the allocations it
    used are the first ones the allocator had to give. *)
Theorem ddtrace_persist_metadata_return_values :
  forall hdr dlog_produce dtrace_probes dtrace_nprobes st hdl alloc rc alloc',
    ddtrace_persist_metadata hdr dlog_produce dtrace_probes dtrace_nprobes
      st hdl alloc = Ok (rc, alloc') ->
    (rc = 0 \/ rc = -1)
    /\ (exists used, alloc = used ++ alloc')
    /\ (log_accepts dlog_produce -> rc = 0).
Proof.
  intros hdr dlog_produce dtrace_probes dtrace_nprobes st hdl alloc rc alloc'
    H.
  unfold ddtrace_persist_metadata in H.
  destruct (negb (hdl =? NULL)); simpl in H; [|discriminate].
  assert (Hfail : (rc = 0 \/ rc = -1)
                  /\ (exists used, alloc = used ++ alloc')
                  /\ (log_accepts dlog_produce -> rc = 0) ->
                  (rc = 0 \/ rc = -1)
                  /\ (exists used, alloc = used ++ alloc')
                  /\ (log_accepts dlog_produce -> rc = 0)) by tauto.
  destruct (produce_fails dlog_produce hdl DDTRACE_NFORMAT_KEY _) eqn:Hp1.
  { inversion H; subst. split; [now right|]. split; [now exists []|].
    intros Hlog. rewrite Hlog in Hp1. discriminate. }
  destruct (persist_formats dlog_produce st hdl _) as [rc0|] eqn:Hf;
    simpl in H; [|discriminate].
  destruct (negb (rc0 =? 0)) eqn:Hrc0.
  { inversion H; subst. split; [now right|]. split; [now exists []|].
    intros Hlog. exfalso.
    destruct (dts_formats st) as [formats|] eqn:Hfm.
    - clear Hfail Hp1 H. revert Hf Hrc0.
      generalize (seqZ 1 (dts_nformats st)).
      induction l as [|fmt fmts IH]; simpl; intros Hf Hrc0.
      + inversion Hf; subst. discriminate.
      + rewrite Hfm in Hf.
        destruct (formats !! Z.to_nat (fmt - 1)) as [[s|]|];
          try discriminate.
        rewrite Hlog in Hf. now apply IH.
    - destruct (seqZ 1 (dts_nformats st)); simpl in Hf.
      + inversion Hf; subst. discriminate.
      + rewrite Hfm in Hf. discriminate. }
  destruct (produce_fails dlog_produce hdl DDTRACE_NPROBE_KEY _) eqn:Hp2.
  { inversion H; subst. split; [now right|]. split; [now exists []|].
    intros Hlog. rewrite Hlog in Hp2. discriminate. }
  destruct ((0 <? dts_necbs st) && _); simpl in H; [|discriminate].
  pose proof (persist_eprobes_values _ _ _ _ _ _ _ _ _ H) as [Hrc Hused].
  split; [exact Hrc|]. split; [exact Hused|].
  intros Hlog. destruct Hrc as [Hz|Hm]; [exact Hz|]. exfalso. subst rc.
  clear Hfail Hp1 Hp2 Hf Hrc0 Hused. revert alloc H.
  generalize (seqZ 1 (dts_epid st)).
  induction l as [|epid epids IH]; intros alloc H; simpl in H.
  - inversion H.
  - destruct (0 <? dts_necbs st); simpl in H; [|discriminate].
    destruct (dts_ecbs st) as [ecbs|]; simpl in H; [|discriminate].
    destruct (ecbs !! Z.to_nat (epid - 1)) as [ecb|]; simpl in H;
      [|discriminate].
    destruct ecb as [e|]; simpl in H; [|now apply IH in H].
    destruct (dte_epid e =? epid); simpl in H; [|discriminate].
    destruct (dte_probe e) as [pr|]; [|now apply IH in H].
    destruct (dtrace_probes !! Z.to_nat (dtpr_id pr - 1)) as [[probe|]|];
      [| now apply IH in H | discriminate].
    rewrite Hlog in H.
    destruct (alloc_next alloc) as [[|] alloc1]; [|discriminate].
    rewrite Hlog in H. now apply IH in H.
Qed.

Lemma ddtrace_persist_metadata_return_values_witness :
  (-1 = 0 \/ -1 = -1)
  /\ (exists used, [true; true] = used ++ [true])
  /\ (log_accepts
        (Some (fun (_ : Z) key (_ : dlog_payload) =>
                 if String.eqb key DDTRACE_EPROBE_KEY then -1 else 0)) ->
      -1 = 0).
Proof.
  apply (ddtrace_persist_metadata_return_values example_headers _
           [Some example_probe] 1 (example_state []) 7 [true; true]).
  reflexivity.
Defined.



(** ** The user-space consumer *)

Import Consumer.

Lemma produce_retry_queue_full :
  forall (K : nat) msg rest,
    produce_retry
      (replicate K RD_KAFKA_RESP_ERR__QUEUE_FULL
       ++ RD_KAFKA_RESP_ERR_NO_ERROR :: rest) msg
    = Some (concat (replicate K (queue_full_round msg))
            ++ [EvProduce msg; EvEnqueued], Enqueued, rest).
Proof.
  induction K as [|K IH]; intros msg rest; simpl; [reflexivity|].
  rewrite IH. reflexivity.
Qed.

Lemma polls_of_rounds :
  forall (K : nat) msg tail,
    length (List.filter is_poll
              (concat (replicate K (queue_full_round msg)) ++ tail))
    = (K + length (List.filter is_poll tail))%nat.
Proof.
  induction K as [|K IH]; intros msg tail; simpl; [reflexivity|].
  now rewrite IH.
Qed.

(** C5. On the closing fragment of a message, with a broker whose first
    [K] answers are queue-full and whose next answer takes the message,
    the handler returns with the message enqueued: it offers the same
    bytes [K + 1] times, polls the producer for at most 1000 ms after each
    of the [K] refusals, and never leaves the message behind. *)
Theorem dtc_buffered_handler_retries_until_enqueued :
  forall (K : nat) (acc tail : list byte) rest,
    let fragment := x7d :: tail in
    let msg := acc ++ take (strlen fragment) fragment in
    let evs := concat (replicate K (queue_full_round msg))
               ++ [EvProduce msg; EvEnqueued] in
    dtc_buffered_handler fragment
      (HandlerState (Some acc)
         (replicate K RD_KAFKA_RESP_ERR__QUEUE_FULL
          ++ RD_KAFKA_RESP_ERR_NO_ERROR :: rest))
    = Returned 0 evs (Some Enqueued) (HandlerState None rest)
    /\ length (List.filter is_poll evs) = K.
Proof.
  intros K acc tail rest fragment msg evs. split.
  - unfold dtc_buffered_handler.
    change (byte_val (hd x00 fragment)) with 125.
    change (125 =? open_brace) with false.
    change (125 =? close_brace) with true.
    cbn [obind output_buf broker dl_bbuf_bcat]. fold msg.
    rewrite produce_retry_queue_full. reflexivity.
  - unfold evs. rewrite polls_of_rounds. simpl. lia.
Qed.

(** What [dtc_get_buf] does decide: a buffer of nonzero size comes from a
    message without error, of nonzero length, with a key on which the
    bounded comparison gives [0]. *)
Lemma dtc_get_buf_nonzero_size :
  forall alloc cpu m rc b alloc',
    dtc_get_buf alloc cpu m = (rc, Some b, alloc') ->
    dtbd_size b <> 0 ->
    exists msg k,
      m = Some msg /\ err msg = RD_KAFKA_RESP_ERR_NO_ERROR /\ 0 < len msg
      /\ key msg = Some k
      /\ strncmp k ddtrace_key (Z.to_nat (key_len msg)) = 0
      /\ dtbd_size b = len msg.
Proof.
  intros alloc cpu m rc b alloc' H Hsize. unfold dtc_get_buf in H.
  destruct (alloc_next alloc) as [[|] alloc1]; [|discriminate].
  destruct m as [msg|]; [|inversion H; subst; now destruct Hsize].
  destruct (is_no_error (err msg)) eqn:Herr; simpl in H;
    [|inversion H; subst; now destruct Hsize].
  destruct (0 <? len msg) eqn:Hlen;
    [|inversion H; subst; now destruct Hsize].
  destruct (key msg) as [k|] eqn:Hkey;
    [|inversion H; subst; now destruct Hsize].
  destruct (strncmp k ddtrace_key (Z.to_nat (key_len msg)) =? 0) eqn:Hcmp;
    [|inversion H; subst; now destruct Hsize].
  unfold dt_zalloc in H.
  destruct (alloc_next alloc1) as [[|] alloc2]; [|discriminate].
  inversion H; subst. simpl.
  exists msg, k. apply Z.ltb_lt in Hlen. apply Z.eqb_eq in Hcmp.
  split; [reflexivity|].
  split; [destruct (err msg); (reflexivity || discriminate)|].
  repeat split; assumption.
Qed.

(** The function fails only when one of its two allocations does. *)
Lemma dtc_get_buf_failure :
  forall alloc cpu m b alloc',
    dtc_get_buf alloc cpu m = (-1, b, alloc') ->
    fst (alloc_next alloc) = false
    \/ fst (alloc_next (snd (alloc_next alloc))) = false.
Proof.
  intros alloc cpu m b alloc' H. unfold dtc_get_buf in H.
  destruct (alloc_next alloc) as [[|] alloc1]; [|now left].
  right. simpl.
  destruct m as [msg|]; [|discriminate].
  destruct (is_no_error (err msg) && (0 <? len msg)); [|discriminate].
  destruct (key msg) as [k|]; [|discriminate].
  destruct (strncmp k ddtrace_key (Z.to_nat (key_len msg)) =? 0);
    [|discriminate].
  unfold dt_zalloc in H.
  destruct (alloc_next alloc1) as [[|] alloc2]; [discriminate|reflexivity].
Qed.

(** C9. The claim: a buffer of nonzero size is returned only when the key
    of the message is ["ddtrace"]. The handler compares with
    [strncmp(key, "ddtrace", key_len)], which looks at the first [key_len]
    characters only, so every key that is a beginning of ["ddtrace"] is
    taken as well. A sound 3-byte message with the 2-byte key ["dd"] comes
    back with its payload copied and size 3, and so does one whose key has
    no bytes. *)
Theorem dtc_get_buf_accepts_short_key :
  let m (k : list byte) :=
    {| err := RD_KAFKA_RESP_ERR_NO_ERROR; payload := Some [x01; x02; x03];
       len := 3; key := Some k; key_len := Z.of_nat (length k) |} in
  [x64; x64] <> ddtrace_key
  /\ dtc_get_buf [] 0 (Some (m [x64; x64]))
     = (0, Some {| dtbd_data := Some [x01; x02; x03]; dtbd_size := 3;
                   dtbd_cpu := 0 |}, [])
  /\ dtc_get_buf [] 0 (Some (m []))
     = (0, Some {| dtbd_data := Some [x01; x02; x03]; dtbd_size := 3;
                   dtbd_cpu := 0 |}, [])
  /\ dtc_get_buf [] 0 (Some (m ddtrace_key))
     = (0, Some {| dtbd_data := Some [x01; x02; x03]; dtbd_size := 3;
                   dtbd_cpu := 0 |}, [])
  /\ dtc_get_buf [] 0 (Some (m [x64; x78]))
     = (0, Some {| dtbd_data := None; dtbd_size := 0; dtbd_cpu := 0 |}, []).
Proof.
  split; [discriminate|]. repeat split; reflexivity.
Qed.

(** ** More on the consumer *)

Lemma byte_val_inj : forall a b, byte_val a = byte_val b -> a = b.
Proof.
  intros a b H. unfold byte_val in H. apply N2Z.inj in H.
  pose proof (Byte.of_to_N a) as Ha. pose proof (Byte.of_to_N b) as Hb.
  rewrite H in Ha. congruence.
Qed.

Lemma strncmp_prefix :
  forall k s,
    plain_key k ->
    strncmp k s (length k) = 0 <-> k `prefix_of` s.
Proof.
  induction k as [|c k IH]; intros s Hk; simpl.
  - split; [intros _; apply prefix_nil|reflexivity].
  - inversion Hk as [|? ? Hc Hrest]; subst.
    destruct s as [|d s]; simpl.
    + assert (Hne : (byte_val c =? byte_val x00) = false)
        by (apply Z.eqb_neq; exact Hc).
      rewrite Hne. split.
      * intros H. change (byte_val x00) with 0 in H. lia.
      * intros H. apply prefix_nil_inv in H. discriminate.
    + destruct (byte_val c =? byte_val d) eqn:Hcd.
      * apply Z.eqb_eq, byte_val_inj in Hcd. subst d.
        assert (Hnz : (byte_val c =? 0) = false) by (now apply Z.eqb_neq).
        rewrite Hnz, (IH s Hrest). split.
        -- now apply prefix_cons.
        -- now apply prefix_cons_inv_2.
      * apply Z.eqb_neq in Hcd. split; [lia|].
        intros H. apply prefix_cons_inv_1 in H. congruence.
Qed.

Lemma produce_retry_stuck :
  forall answers msg,
    produce_retry answers msg = None <->
    Forall (fun e => is_queue_full e = true) answers.
Proof.
  induction answers as [|e answers IH]; intros msg; simpl.
  - split; [constructor|reflexivity].
  - destruct (is_no_error e) eqn:Hok.
    { split; [discriminate|]. intros H. inversion H; subst.
      destruct e; discriminate. }
    destruct (is_queue_full e) eqn:Hfull.
    + destruct (produce_retry answers msg) as [[[evs r] rest]|] eqn:Hp.
      * split; [discriminate|]. intros H. inversion H as [|? ? _ Hrest].
        apply (IH msg) in Hrest. congruence.
      * split; [|reflexivity]. intros _. constructor; [exact Hfull|].
        now apply (IH msg).
    + split; [discriminate|]. intros H. inversion H; subst. congruence.
Qed.

Lemma produce_retry_other_error :
  forall (K : nat) code msg rest,
    produce_retry
      (replicate K RD_KAFKA_RESP_ERR__QUEUE_FULL
       ++ RD_KAFKA_RESP_ERR_OTHER code :: rest) msg
    = Some (concat (replicate K (queue_full_round msg))
            ++ [EvProduce msg; EvFailed (RD_KAFKA_RESP_ERR_OTHER code)],
            Dropped (RD_KAFKA_RESP_ERR_OTHER code), rest).
Proof.
  induction K as [|K IH]; intros code msg rest; simpl; [reflexivity|].
  rewrite IH. reflexivity.
Qed.

Lemma dtc_feed_middles :
  forall middles acc closing rest,
    Forall middle_fragment middles ->
    first_char closing = close_brace ->
    dtc_feed (middles ++ [closing])
      (HandlerState (Some acc) (RD_KAFKA_RESP_ERR_NO_ERROR :: rest))
    = Some ([EvProduce (acc ++ concat (map cstring (middles ++ [closing])));
             EvEnqueued],
            HandlerState None rest).
Proof.
  induction middles as [|f middles IH]; intros acc closing rest Hmid Hclose.
  - simpl. unfold dtc_buffered_handler.
    unfold first_char in Hclose. rewrite Hclose. simpl.
    unfold cstring. now rewrite app_nil_r.
  - inversion Hmid as [|? ? [Hno Hnc] Hrest]; subst.
    change ((f :: middles) ++ [closing]) with (f :: (middles ++ [closing])).
    cbn [dtc_feed]. unfold dtc_buffered_handler at 1.
    unfold first_char in Hno, Hnc.
    apply Z.eqb_neq in Hno, Hnc. rewrite Hno, Hnc.
    cbn [obind output_buf broker dl_bbuf_bcat].
    rewrite (IH _ closing rest Hrest Hclose).
    cbn [map concat app]. unfold cstring at 2.
    now rewrite <- app_assoc.
Qed.

(** X22. For a sound message whose key holds no terminator, [dtc_get_buf]
    hands the payload on exactly when the key is a beginning of
    ["ddtrace"] (the whole word and the key without characters included);
    for every other key the descriptor comes back with size [0]. *)
Theorem dtc_get_buf_takes_key_prefixes :
  forall alloc cpu m k p rc b alloc',
    sound_message m k p ->
    dtc_get_buf alloc cpu (Some m) = (rc, Some b, alloc') ->
    (dtbd_size b <> 0 <-> k `prefix_of` ddtrace_key)
    /\ (dtbd_size b = 0 \/ dtbd_size b = len m).
Proof.
  intros alloc cpu m k p rc b alloc'
    (Herr & Hlen & Hkey & Hklen & Hplain & _ & _) H.
  unfold dtc_get_buf in H.
  destruct (alloc_next alloc) as [[|] alloc1]; [|discriminate].
  rewrite Herr, Hkey, Hklen, Nat2Z.id in H. simpl in H.
  apply Z.ltb_lt in Hlen. rewrite Hlen in H. apply Z.ltb_lt in Hlen.
  pose proof (strncmp_prefix k ddtrace_key Hplain) as Hpre.
  destruct (strncmp k ddtrace_key (length k) =? 0) eqn:Hcmp.
  - apply Z.eqb_eq in Hcmp. unfold dt_zalloc in H.
    destruct (alloc_next alloc1) as [[|] alloc2]; [|discriminate].
    inversion H; subst. simpl. split; [|now right].
    split; [intros _; now apply Hpre|intros _; lia].
  - apply Z.eqb_neq in Hcmp. inversion H; subst. simpl.
    split; [|now left]. split; [intros Hz; now destruct Hz|].
    intros Hp. apply Hpre in Hp. contradiction.
Qed.

Lemma dtc_get_buf_takes_key_prefixes_witness :
  (dtbd_size {| dtbd_data := Some [x01; x02; x03]; dtbd_size := 3;
                dtbd_cpu := 4 |} <> 0
   <-> [x64; x64; x74] `prefix_of` ddtrace_key)
  /\ (dtbd_size {| dtbd_data := Some [x01; x02; x03]; dtbd_size := 3;
                   dtbd_cpu := 4 |} = 0
      \/ dtbd_size {| dtbd_data := Some [x01; x02; x03]; dtbd_size := 3;
                      dtbd_cpu := 4 |}
         = len (example_message [x64; x64; x74])).
Proof.
  apply (dtc_get_buf_takes_key_prefixes [] 4
           (example_message [x64; x64; x74]) [x64; x64; x74]
           [x01; x02; x03] 0 _ []).
  - unfold sound_message. simpl.
    split; [reflexivity|]. split; [lia|]. split; [reflexivity|].
    split; [reflexivity|].
    split; [repeat constructor; discriminate|].
    split; reflexivity.
  - reflexivity.
Defined.

(** X23. A sound message whose key compares equal comes back copied: the
    descriptor holds the [len] bytes of the payload, unchanged, the size
    [len] and the CPU that was asked for, and two allocations were
    used. *)
Theorem dtc_get_buf_copies_payload :
  forall alloc cpu m k p,
    sound_message m k p ->
    k `prefix_of` ddtrace_key ->
    two_blocks alloc ->
    dtc_get_buf alloc cpu (Some m)
    = (0, Some {| dtbd_data := Some p; dtbd_size := len m; dtbd_cpu := cpu |},
       snd (alloc_next (snd (alloc_next alloc)))).
Proof.
  intros alloc cpu m k p
    (Herr & Hlen & Hkey & Hklen & Hplain & Hpay & Hplen) Hpre [Ha1 Ha2].
  unfold dtc_get_buf.
  destruct (alloc_next alloc) as [got1 alloc1]. simpl in Ha1, Ha2. subst got1.
  rewrite Herr, Hkey, Hklen, Nat2Z.id. simpl.
  apply Z.ltb_lt in Hlen. rewrite Hlen.
  apply (strncmp_prefix k ddtrace_key Hplain) in Hpre. rewrite Hpre. simpl.
  unfold dt_zalloc.
  destruct (alloc_next alloc1) as [got2 alloc2]. simpl in Ha2. subst got2.
  simpl. rewrite Hpay. simpl. unfold memcpy.
  rewrite Hplen, Nat2Z.id, firstn_all.
  rewrite drop_ge by (now rewrite length_replicate).
  now rewrite app_nil_r.
Qed.

Lemma dtc_get_buf_copies_payload_witness :
  dtc_get_buf [true; true; false] 4 (Some (example_message ddtrace_key))
  = (0, Some {| dtbd_data := Some [x01; x02; x03];
                dtbd_size := len (example_message ddtrace_key);
                dtbd_cpu := 4 |},
     snd (alloc_next (snd (alloc_next [true; true; false])))).
Proof.
  apply (dtc_get_buf_copies_payload _ 4 _ ddtrace_key).
  - unfold sound_message. simpl.
    split; [reflexivity|]. split; [lia|]. split; [reflexivity|].
    split; [reflexivity|].
    split; [repeat constructor; discriminate|].
    split; reflexivity.
  - reflexivity.
  - split; reflexivity.
Defined.

(** X24. When there is no message, or the message is passed over (an
    error, no bytes, no key, a key that compares unequal), [dtc_get_buf]
    still returns [0]: the descriptor it stores is the zeroed one, with
    no data, size [0] and CPU [0], and only the descriptor was
    allocated. *)
Theorem dtc_get_buf_passes_over :
  forall alloc cpu m,
    fst (alloc_next alloc) = true ->
    match m with None => True | Some msg => passed_message msg end ->
    dtc_get_buf alloc cpu m
    = (0, Some {| dtbd_data := None; dtbd_size := 0; dtbd_cpu := 0 |},
       snd (alloc_next alloc)).
Proof.
  intros alloc cpu m Ha Hm. unfold dtc_get_buf.
  destruct (alloc_next alloc) as [got alloc1]. simpl in Ha. subst got.
  simpl. destruct m as [msg|]; [|reflexivity].
  destruct (is_no_error (err msg)) eqn:Herr; [|reflexivity]. simpl.
  destruct (0 <? len msg) eqn:Hlen; [|reflexivity].
  destruct (key msg) as [k|] eqn:Hkey; [|reflexivity].
  destruct (strncmp k ddtrace_key (Z.to_nat (key_len msg)) =? 0) eqn:Hcmp;
    [|reflexivity].
  exfalso. apply Z.ltb_lt in Hlen. apply Z.eqb_eq in Hcmp.
  destruct Hm as [He|[Hl|[Hk|(k' & Hk' & Hne)]]].
  - destruct (err msg); try discriminate. now apply He.
  - lia.
  - congruence.
  - congruence.
Qed.

Lemma dtc_get_buf_passes_over_witness :
  dtc_get_buf [true; false] 4 (Some (example_message [x64; x78]))
  = (0, Some {| dtbd_data := None; dtbd_size := 0; dtbd_cpu := 0 |},
     snd (alloc_next [true; false])).
Proof.
  apply dtc_get_buf_passes_over; [reflexivity|].
  right. right. right. exists [x64; x78]. split; [reflexivity|].
  vm_compute. discriminate.
Defined.

(** X25. [dtc_get_buf] returns [0] or [-1]; it returns [-1] exactly when
    it stores no descriptor, and then one of its two allocations
    failed. *)
Theorem dtc_get_buf_fails_on_allocation_only :
  forall alloc cpu m rc b alloc',
    dtc_get_buf alloc cpu m = (rc, b, alloc') ->
    (rc = 0 \/ rc = -1)
    /\ (rc = -1 <-> b = None)
    /\ (rc = -1 ->
        fst (alloc_next alloc) = false
        \/ fst (alloc_next (snd (alloc_next alloc))) = false).
Proof.
  intros alloc cpu m rc b alloc' H. unfold dtc_get_buf in H.
  assert (Hok : forall d a, (rc, b, alloc') = (0, Some d, a) ->
            (rc = 0 \/ rc = -1) /\ (rc = -1 <-> b = None)
            /\ (rc = -1 -> fst (alloc_next alloc) = false
                           \/ fst (alloc_next (snd (alloc_next alloc)))
                              = false)).
  { intros d a Heq. inversion Heq; subst.
    split; [now left|]. split; [split; discriminate|discriminate]. }
  destruct (alloc_next alloc) as [[|] alloc1]; simpl; simpl in Hok.
  2:{ inversion H; subst. split; [now right|].
      split; [now split|]. intros _. now left. }
  destruct m as [msg|]; [|symmetry in H; now apply Hok in H].
  destruct (is_no_error (err msg) && (0 <? len msg));
    [|symmetry in H; now apply Hok in H].
  destruct (key msg) as [k|]; [|symmetry in H; now apply Hok in H].
  destruct (strncmp k ddtrace_key (Z.to_nat (key_len msg)) =? 0);
    [|symmetry in H; now apply Hok in H].
  unfold dt_zalloc in H.
  destruct (alloc_next alloc1) as [[|] alloc2];
    [symmetry in H; now apply Hok in H|].
  inversion H; subst. split; [now right|].
  split; [now split|]. intros _. now right.
Qed.

Lemma dtc_get_buf_fails_on_allocation_only_witness :
  (-1 = 0 \/ -1 = -1)
  /\ (-1 = -1 <-> @None bufdesc = None)
  /\ (-1 = -1 ->
      fst (alloc_next [true; false]) = false
      \/ fst (alloc_next (snd (alloc_next [true; false]))) = false).
Proof.
  apply (dtc_get_buf_fails_on_allocation_only [true; false] 4
           (Some (example_message ddtrace_key)) (-1) None []).
  reflexivity.
Defined.

(** X26. The handler puts a message together from its fragments: after an
    opening fragment (['{']), any number of middle fragments and a closing
    one (['}']), with a broker that takes the message, exactly one message
    is produced; it is the characters of all fragments in their order, and
    the buffer is gone again. *)
Theorem dtc_buffered_handler_assembles_message :
  forall opening middles closing rest,
    first_char opening = open_brace ->
    Forall middle_fragment middles ->
    first_char closing = close_brace ->
    dtc_feed (opening :: middles ++ [closing])
      (HandlerState None (RD_KAFKA_RESP_ERR_NO_ERROR :: rest))
    = Some ([EvProduce
               (concat (map cstring (opening :: middles ++ [closing])));
             EvEnqueued],
            HandlerState None rest).
Proof.
  intros opening middles closing rest Hopen Hmid Hclose.
  cbn [dtc_feed]. unfold dtc_buffered_handler at 1.
  unfold first_char in Hopen. rewrite Hopen.
  change (open_brace =? open_brace) with true.
  change (open_brace =? close_brace) with false.
  cbn [obind output_buf broker dl_bbuf_bcat dl_bbuf_new_auto DL_ASSERT].
  simpl obind.
  rewrite (dtc_feed_middles middles _ closing rest Hmid Hclose).
  reflexivity.
Qed.

Lemma dtc_buffered_handler_assembles_message_witness :
  dtc_feed ([x7b; x61; x00; xff] :: [[x62; x63]; [x64; x00]] ++ [[x7d]])
    (HandlerState None (RD_KAFKA_RESP_ERR_NO_ERROR :: []))
  = Some ([EvProduce
             (concat (map cstring
                ([x7b; x61; x00; xff] :: [[x62; x63]; [x64; x00]] ++ [[x7d]])));
           EvEnqueued],
          HandlerState None []).
Proof.
  apply dtc_buffered_handler_assembles_message.
  - reflexivity.
  - repeat constructor; discriminate.
  - reflexivity.
Defined.

(** X27. On the closing fragment, a broker that refuses the message for a
    reason other than a full queue makes the handler give the message up:
    after [K] full-queue refusals with their polls and the one other
    refusal it stops trying, frees the buffer and returns [0] all the
    same. *)
Theorem dtc_buffered_handler_drops_on_other_error :
  forall (K : nat) code (acc tail : list byte) rest,
    let fragment := x7d :: tail in
    let msg := acc ++ cstring fragment in
    let evs := concat (replicate K (queue_full_round msg))
               ++ [EvProduce msg; EvFailed (RD_KAFKA_RESP_ERR_OTHER code)] in
    dtc_buffered_handler fragment
      (HandlerState (Some acc)
         (replicate K RD_KAFKA_RESP_ERR__QUEUE_FULL
          ++ RD_KAFKA_RESP_ERR_OTHER code :: rest))
    = Returned 0 evs (Some (Dropped (RD_KAFKA_RESP_ERR_OTHER code)))
        (HandlerState None rest)
    /\ length (List.filter is_poll evs) = K.
Proof.
  intros K code acc tail rest fragment msg evs. split.
  - unfold dtc_buffered_handler.
    change (byte_val (hd x00 fragment)) with 125.
    change (125 =? open_brace) with false.
    change (125 =? close_brace) with true.
    cbn [obind output_buf broker dl_bbuf_bcat].
    change (acc ++ take (strlen fragment) fragment) with msg.
    rewrite produce_retry_other_error. reflexivity.
  - unfold evs. rewrite polls_of_rounds. simpl. lia.
Qed.

(** X28. On the closing fragment of an open message the handler stays in
    its retry loop exactly as long as the broker's queue stays full: it
    does not return while every answer is a full queue, and it returns as
    soon as one answer is anything else. *)
Theorem dtc_buffered_handler_retries_while_full :
  forall (acc tail : list byte) answers,
    dtc_buffered_handler (x7d :: tail) (HandlerState (Some acc) answers)
      = Retrying
    <-> Forall (fun e => is_queue_full e = true) answers.
Proof.
  intros acc tail answers. unfold dtc_buffered_handler.
  change (byte_val (hd x00 (x7d :: tail))) with 125.
  change (125 =? open_brace) with false.
  change (125 =? close_brace) with true.
  cbn [obind output_buf broker dl_bbuf_bcat].
  rewrite <- (produce_retry_stuck answers
                (acc ++ take (strlen (x7d :: tail)) (x7d :: tail))).
  destruct (produce_retry answers _) as [[[evs r] rest]|]; split;
    (reflexivity || discriminate).
Qed.

(** X29. Whenever the handler returns it returns [0]. After a closing
    fragment the buffer is gone and one message was offered; after any
    other fragment the buffer holds what it held with the characters of
    the fragment behind, nothing was offered and the broker was not
    asked. *)
Theorem dtc_buffered_handler_return :
  forall fragment s rc evs sent s',
    dtc_buffered_handler fragment s = Returned rc evs sent s' ->
    rc = 0
    /\ (first_char fragment = close_brace ->
        output_buf s' = None /\ sent <> None)
    /\ (first_char fragment <> close_brace ->
        sent = None /\ evs = [] /\ broker s' = broker s
        /\ exists acc,
             output_buf s' = Some (acc ++ cstring fragment)
             /\ (first_char fragment = open_brace -> acc = [])
             /\ (first_char fragment <> open_brace ->
                 output_buf s = Some acc)).
Proof.
  intros fragment s rc evs sent s' H. unfold dtc_buffered_handler in H.
  fold (first_char fragment) in H.
  destruct (first_char fragment =? open_brace) eqn:Ho.
  - apply Z.eqb_eq in Ho.
    assert (Hc : (first_char fragment =? close_brace) = false)
      by (rewrite Ho; reflexivity).
    destruct (output_buf s) as [old|]; simpl in H; [discriminate|].
    rewrite Hc in H. inversion H; subst.
    split; [reflexivity|]. split.
    + intros Hclose. rewrite Hclose in Ho. discriminate.
    + intros _. repeat split. exists []. simpl. repeat split.
      intros Hne. contradiction.
  - apply Z.eqb_neq in Ho.
    destruct (output_buf s) as [old|] eqn:Hold; simpl in H; [|discriminate].
    destruct (first_char fragment =? close_brace) eqn:Hc.
    + destruct (produce_retry (broker s) _) as [[[evs0 r] rest]|];
        [|discriminate].
      inversion H; subst. apply Z.eqb_eq in Hc.
      split; [reflexivity|]. split.
      * intros _. split; [reflexivity|discriminate].
      * intros Hne. contradiction.
    + inversion H; subst. apply Z.eqb_neq in Hc.
      split; [reflexivity|]. split.
      * intros Hclose. contradiction.
      * intros _. repeat split. exists old. repeat split.
        intros Hopen. contradiction.
Qed.

Lemma dtc_buffered_handler_return_witness :
  0 = 0
  /\ (first_char [x61; x62] = close_brace ->
      output_buf (HandlerState (Some [x7b; x61; x62]) []) = None
      /\ @None produced <> None)
  /\ (first_char [x61; x62] <> close_brace ->
      @None produced = None /\ @nil handler_event = []
      /\ broker (HandlerState (Some [x7b; x61; x62]) [])
         = broker (HandlerState (Some [x7b]) [])
      /\ exists acc,
           output_buf (HandlerState (Some [x7b; x61; x62]) [])
             = Some (acc ++ cstring [x61; x62])
           /\ (first_char [x61; x62] = open_brace -> acc = [])
           /\ (first_char [x61; x62] <> open_brace ->
               output_buf (HandlerState (Some [x7b]) []) = Some acc)).
Proof.
  apply (dtc_buffered_handler_return [x61; x62]
           (HandlerState (Some [x7b]) []) 0 [] None
           (HandlerState (Some [x7b; x61; x62]) [])).
  reflexivity.
Defined.
